(** * pokemon-stock-monitor: the stock check, the notifier and the polling loop

    A shallow embedding of [stock_monitor.py].  The script polls one product
    page, reads the state of its "Add to Cart" button out of the parsed
    markup, and sends one alert the first time the product is in stock.
    Its companion [test_email.py], which tries the e-mail settings out, is
    embedded next to it.

    Layout of the development:
    - [py]: the Python built-ins the script uses on strings;
    - [bs4]: the parsed document and [find], [get_text], [.string], [.get];
    - the classification block of [check_stock] ([classify]);
    - exceptions, events and the small writer-and-error monad in which
      [check_stock], [send_notification], [monitor], [load_config] and
      [main] are written;
    - [test_email]: the test script, in a monad of its own whose actions
      are what it prints, what it hands to the relay and what it asks;
    - the theorems, one group per numbered property of the specification,
      then further properties of the two scripts.

    A Python [str] is a [string] holding its UTF-8 bytes.  Equality and
    substring tests on valid UTF-8 agree with the same tests on code points.

    The outside (the web server, the HTML parser, the SMTP relay, the
    operator's interrupt) is an input: a run of the loop is computed over a
    list of ticks, each holding what the outside answers during one pass.
    The one behaviour of BeautifulSoup that depends on its version is a
    parameter, [absent_matches_empty], and every property is proved for
    both of its values. *)

From Stdlib Require Import ZArith String Ascii List Bool Lia.
From stdpp Require Import base option gmap strings list.
Import ListNotations.
Local Open Scope Z_scope.

(** ** Python built-ins *)

Module py.

(** [needle in hay] on strings: [needle] occurs as a substring of [hay]. *)
Fixpoint contains (hay needle : string) : bool :=
  String.prefix needle hay ||
  match hay with
  | EmptyString => false
  | String _ rest => contains rest needle
  end.

(** [' '.join(l)]. *)
Definition join (l : list string) : string := String.concat " " l.

Definition bytes (l : list nat) : string :=
  fold_right (fun n s => String (ascii_of_nat n) s) EmptyString l.

(** The characters for which [str.isspace] holds, as UTF-8: U+0009..U+000D,
    U+001C..U+0020, U+0085, U+00A0, U+1680, U+2000..U+200A, U+2028, U+2029,
    U+202F, U+205F, U+3000. *)
Definition whitespace : list string :=
  map bytes
    [ [9]; [10]; [11]; [12]; [13]; [28]; [29]; [30]; [31]; [32];
      [194; 133]; [194; 160]; [225; 154; 128];
      [226; 128; 128]; [226; 128; 129]; [226; 128; 130]; [226; 128; 131];
      [226; 128; 132]; [226; 128; 133]; [226; 128; 134]; [226; 128; 135];
      [226; 128; 136]; [226; 128; 137]; [226; 128; 138];
      [226; 128; 168]; [226; 128; 169]; [226; 128; 175];
      [226; 129; 159]; [227; 128; 128] ]%nat.

Fixpoint drop (n : nat) (s : string) : string :=
  match n, s with
  | S n', String _ rest => drop n' rest
  | _, _ => s
  end.

Fixpoint rev_acc (s acc : string) : string :=
  match s with
  | EmptyString => acc
  | String a rest => rev_acc rest (String a acc)
  end.

Definition rev (s : string) : string := rev_acc s EmptyString.

(** One leading character of [s] out of [chars], removed. *)
Definition skip_one (chars : list string) (s : string) : option string :=
  match List.find (fun c => String.prefix c s) chars with
  | Some c => Some (drop (String.length c) s)
  | None => None
  end.

Fixpoint lstrip_chars (chars : list string) (fuel : nat) (s : string) : string :=
  match fuel with
  | O => s
  | S fuel' =>
      match skip_one chars s with
      | Some rest => lstrip_chars chars fuel' rest
      | None => s
      end
  end.

Definition lstrip (s : string) : string :=
  lstrip_chars whitespace (String.length s) s.

Definition rstrip (s : string) : string :=
  rev (lstrip_chars (map rev whitespace) (String.length s) (rev s)).

(** [s.strip()]. *)
Definition strip (s : string) : string := rstrip (lstrip s).

Definition lower_ascii (a : ascii) : ascii :=
  let n := nat_of_ascii a in
  if ((65 <=? n) && (n <=? 90))%nat then ascii_of_nat (n + 32) else a.

(** [s.lower()]; only the letters A..Z matter to the comparison the script
    makes with it. *)
Fixpoint lower (s : string) : string :=
  match s with
  | EmptyString => EmptyString
  | String a rest => String (lower_ascii a) (lower rest)
  end.

Definition digit (a : ascii) : option Z :=
  let n := nat_of_ascii a in
  if ((48 <=? n) && (n <=? 57))%nat then Some (Z.of_nat (n - 48)) else None.

(** The digits of an integer literal as [int] reads them: decimal digits, a
    single underscore allowed between two digits.  [prev] tells whether the
    character before was a digit. *)
Fixpoint digits (prev : bool) (acc : Z) (s : string) : option Z :=
  match s with
  | EmptyString => if prev then Some acc else None
  | String a rest =>
      match digit a with
      | Some d => digits true (10 * acc + d) rest
      | None =>
          if (Ascii.eqb a "_" && prev)%bool then
            match rest with
            | EmptyString => None
            | String b _ =>
                match digit b with
                | Some _ => digits false acc rest
                | None => None
                end
            end
          else None
      end
  end.

(** [int(s)] on a string; [None] stands for [ValueError]. *)
Definition int (s : string) : option Z :=
  match strip s with
  | String "+" rest => digits false 0 rest
  | String "-" rest => option_map Z.opp (digits false 0 rest)
  | t => digits false 0 t
  end.

(** Truth value of a string: non-empty. *)
Definition truthy (s : string) : bool := negb (String.eqb s "").

End py.

(** ** The parsed document (BeautifulSoup with html.parser) *)

Module bs4.

(** The classes of text node.  [get_text] keeps [NavigableString] and
    [CData] only; a comment, a doctype or a declaration is a string of the
    tree but no part of the text. *)
Inductive string_class := PlainText | CData | Comment | OtherMarkup.

(** An attribute value: a string, or for [class] (a multi-valued attribute)
    the list of its whitespace-separated tokens. *)
Inductive attr_value :=
| Str (s : string)
| Tokens (l : list string).

#[warnings="-register-all"]
Inductive PageElement :=
| NavigableString (cls : string_class) (s : string)
| Tag (name : string) (attrs : gmap string attr_value) (contents : list PageElement).

Definition is_text (c : string_class) : bool :=
  match c with
  | PlainText | CData => true
  | Comment | OtherMarkup => false
  end.

(** [tag.descendants]: every node below, in document order. *)
Fixpoint descendants (el : PageElement) : list PageElement :=
  match el with
  | NavigableString _ _ => []
  | Tag _ _ contents =>
      (fix below (l : list PageElement) : list PageElement :=
         match l with
         | [] => []
         | c :: l' => c :: descendants c ++ below l'
         end) contents
  end.

(** The document is the list of its top-level nodes (the contents of the
    [BeautifulSoup] object). *)
Definition soup_descendants (soup : list PageElement) : list PageElement :=
  flat_map (fun c => c :: descendants c) soup.

(** [tag.get_text()]. *)
Fixpoint get_text (el : PageElement) : string :=
  match el with
  | NavigableString c s => if is_text c then s else EmptyString
  | Tag _ _ contents =>
      (fix below (l : list PageElement) : string :=
         match l with
         | [] => EmptyString
         | c :: l' => get_text c +:+ below l'
         end) contents
  end.

(** [tag.string]: the single string child, looked for through single
    children; [None] when a tag on the way has no child or several. *)
Fixpoint string_of (el : PageElement) : option string :=
  match el with
  | NavigableString _ s => Some s
  | Tag _ _ contents =>
      match contents with
      | [c] => string_of c
      | _ => None
      end
  end.

(** [tag.get(key)]. *)
Definition get (el : PageElement) (key : string) : option attr_value :=
  match el with
  | NavigableString _ _ => None
  | Tag _ attrs _ => attrs !! key
  end.

Definition tag_name (el : PageElement) : option string :=
  match el with
  | NavigableString _ _ => None
  | Tag name _ _ => Some name
  end.

(** Truth value of what [get] returns: [None], [''] and an empty list are
    false. *)
Definition truthy (v : option attr_value) : bool :=
  match v with
  | None => false
  | Some (Str s) => py.truthy s
  | Some (Tokens l) => match l with [] => false | _ => true end
  end.

(** What a search matches an attribute value (or [tag.string]) against: a
    function, or a string compared for equality. *)
Inductive matcher :=
| Fn (f : option string -> bool)
| Exact (s : string).

Section Search.

(** The installed version of the library is not pinned by the repository,
    and versions differ on one point: up to 4.12 a value that is missing
    matches whatever search value is false ([if markup is None: return not
    match_against]), so the search string [''] matches a tag without the
    attribute; from 4.13 a search string matches an equal string only.
    [absent_matches_empty] is [true] for the former. *)
Variable absent_matches_empty : bool.

Definition matches_string (markup : option string) (m : matcher) : bool :=
  match m with
  | Fn f => f markup
  | Exact s =>
      match markup with
      | None => absent_matches_empty && negb (py.truthy s)
      | Some x => String.eqb x s
      end
  end.

(** A multi-valued attribute matches when one of its tokens does, or the
    tokens joined by spaces do. *)
Definition matches (v : option attr_value) (m : matcher) : bool :=
  match v with
  | None => matches_string None m
  | Some (Str s) => matches_string (Some s) m
  | Some (Tokens l) =>
      existsb (fun item => matches_string (Some item) m) l
      || matches_string (Some (py.join l)) m
  end.

(** [SoupStrainer.search_tag]: the tag name, every attribute filter, and
    the [string=] filter on [tag.string] when one is given. *)
Definition search_tag (name : string) (attrs : list (string * matcher))
    (text : option string) (el : PageElement) : bool :=
  match el with
  | NavigableString _ _ => false
  | Tag n _ _ =>
      String.eqb n name
      && forallb (fun am => matches (get el (fst am)) (snd am)) attrs
      && match text with
         | None => true
         | Some s => matches_string (string_of el) (Exact s)
         end
  end.

(** [soup.find(name, attrs, string=text)]: the first match in document
    order. *)
Definition find (soup : list PageElement) (name : string)
    (attrs : list (string * matcher)) (text : option string) : option PageElement :=
  List.find (search_tag name attrs text) (soup_descendants soup).

End Search.

End bs4.

(** ** The classification block of [check_stock] (lines 36-67) *)

(** The generated class names the script looks for. *)
Definition add_to_cart_class : string := "add-to-cart-button--PZmQF".
Definition secondary_class : string := "btn-secondary--mtUol".
Definition disabled_class : string := "disabled--vkECP".

(** The four values of [button_status]; the specification calls them
    in-stock-primary, out-of-stock-primary, in-stock-fallback and unknown. *)
Definition in_stock_primary : string := "IN STOCK - 'Add to Cart' button found".
Definition out_of_stock_primary : string := "OUT OF STOCK - 'Unavailable' button found".
Definition in_stock_fallback : string := "IN STOCK - Fallback 'Add to Cart' button found".
Definition unknown : string := "UNKNOWN STATE - No recognizable button pattern found".

(** [lambda x: x and a in x and b in x]. *)
Definition both_in (a b : string) (x : option string) : bool :=
  match x with
  | None => false
  | Some x => py.truthy x && py.contains x a && py.contains x b
  end.

(** Truth value of what [find] returns: a tag is true, [None] is false. *)
Definition found (button : option bs4.PageElement) : bool :=
  match button with
  | Some _ => true
  | None => false
  end.

Section Classifier.

Variable absent_matches_empty : bool.

(** Lines 36-39. *)
Definition in_stock_button (soup : list bs4.PageElement) : option bs4.PageElement :=
  bs4.find absent_matches_empty soup "button"
    [ ("class", bs4.Fn (both_in add_to_cart_class secondary_class));
      ("type", bs4.Exact "button") ] None.

(** Line 42: a tag is always true, so the test is on the text alone. *)
Definition in_stock_button_says_add_to_cart (soup : list bs4.PageElement) : bool :=
  match in_stock_button soup with
  | Some button => String.eqb (py.strip (bs4.get_text button)) "Add to Cart"
  | None => false
  end.

(** Lines 48-51. *)
Definition out_of_stock_button (soup : list bs4.PageElement) : option bs4.PageElement :=
  bs4.find absent_matches_empty soup "button"
    [ ("class", bs4.Fn (both_in add_to_cart_class disabled_class));
      ("disabled", bs4.Exact "") ] None.

(** Line 54. *)
Definition unavailable_button (soup : list bs4.PageElement) : option bs4.PageElement :=
  bs4.find absent_matches_empty soup "button" [ ("disabled", bs4.Exact "") ] (Some "Unavailable").

(** Line 61. *)
Definition fallback_cart_button (soup : list bs4.PageElement) : option bs4.PageElement :=
  bs4.find absent_matches_empty soup "button" [] (Some "Add to Cart").

(** The pair [(in_stock, button_status)] the block computes. *)
Definition classify (soup : list bs4.PageElement) : bool * string :=
  if in_stock_button_says_add_to_cart soup then (true, in_stock_primary)
  else if found (out_of_stock_button soup) || found (unavailable_button soup)
  then (false, out_of_stock_primary)
  else
    match fallback_cart_button soup with
    | Some button =>
        if negb (bs4.truthy (bs4.get button "disabled"))
        then (true, in_stock_fallback)
        else (false, unknown)
    | None => (false, unknown)
    end.

End Classifier.

(** ** Exceptions, events and the monad of the script *)

(** The exception classes that can reach the script's handlers. *)
Inductive exn :=
| ConnectTimeout
| ReadTimeout
| ConnectionError
| HTTPError (status : Z)
| TooManyRedirects
| RequestException
| ParserRejectedMarkup
| RecursionError
| KeyError (key : string)
| ValueError
| SMTPAuthenticationError
| SMTPException
| OSError
| KeyboardInterrupt.

(** [isinstance(e, requests.RequestException)]. *)
Definition is_RequestException (e : exn) : bool :=
  match e with
  | ConnectTimeout | ReadTimeout | ConnectionError | HTTPError _
  | TooManyRedirects | RequestException => true
  | _ => false
  end.

(** [isinstance(e, Exception)]: everything but the interrupt, which derives
    from [BaseException] only. *)
Definition is_Exception (e : exn) : bool :=
  match e with
  | KeyboardInterrupt => false
  | _ => true
  end.

(** A value held by the [email_config] dictionary. *)
Inductive pyval :=
| PStr (s : string)
| PInt (n : Z)
| PBool (b : bool)
| PNone.

Definition pyval_truthy (v : pyval) : bool :=
  match v with
  | PStr s => py.truthy s
  | PInt n => negb (n =? 0)
  | PBool b => b
  | PNone => false
  end.

Inductive level := DEBUG | INFO | WARNING | ERROR.

(** One constructor per logging call of the script; the time stamp that
    some records carry is left out. *)
Inductive log_record :=
| ButtonStatus (button_status : string)   (* line 71 *)
| ErrorCheckingStock (e : exn)            (* line 76 *)
| EmailSent                               (* line 109 *)
| FailedToSendEmail (e : exn)             (* line 112 *)
| StartingToMonitor (url : string)        (* line 117 *)
| CheckInterval (secs : Z)                (* line 118 *)
| BackInStock                             (* line 128 *)
| StillOutOfStock (status : Z)            (* line 132 *)
| FailedToCheckStock                      (* line 134 *)
| StoppedByUser                           (* line 139 *)
| UnexpectedError (e : exn).              (* line 142 *)

(** One constructor per [print] of the script. *)
Inductive console_line :=
| StockAlert (message : string)           (* lines 82 and 113 *)
| MissingRequired                         (* line 152 *)
| MissingVar (var : string)               (* lines 154 and 182 *)
| PleaseHeader                            (* line 155 *)
| PleaseCopy                              (* line 156 *)
| PleaseFill                              (* line 157 *)
| PleaseRunAgain                          (* line 158 *)
| InvalidCheckInterval                    (* line 169 *)
| EmailDisabledMissing                    (* line 180 *)
| EmailHint                               (* line 183 *)
| InvalidSmtpPort                         (* line 195 *)
| Banner                                  (* line 200 *)
| RuleEquals                              (* line 201 *)
| MonitoringUrl (url : string)            (* line 214 *)
| CheckIntervalLine (secs : Z)            (* line 215 *)
| EmailEnabled (to : pyval)               (* line 218 *)
| EmailConsoleOnly                        (* line 220 *)
| StartingMonitor                         (* line 222 *)
| RuleDashes.                             (* line 223 *)

Record email := {
  msg_from : pyval;
  msg_to : pyval;
  msg_subject : string;
  msg_body : string
}.

Inductive smtp_op :=
| Connect (host port : pyval)
| StartTls
| Login (user password : pyval)
| SendMessage (msg : email)
| Quit.

(** What the script does to the outside, in order.  [SendNotification]
    marks an entry into [send_notification]. *)
Inductive event :=
| HttpGet (url user_agent : string) (timeout : Z)
| Log (lvl : level) (r : log_record)
| Console (l : console_line)
| SendNotification (message : string)
| Smtp (op : smtp_op)
| Sleep (secs : Z).

(** A call returns or raises. *)
Inductive result (A : Type) :=
| Return (a : A)
| Raise (e : exn).
Arguments Return {A} a.
Arguments Raise {A} e.

(** A computation: the events it emitted, then how it ended. *)
Definition M (A : Type) : Type := list event * result A.

Definition ret {A} (a : A) : M A := ([], Return a).

Definition raise {A} (e : exn) : M A := ([], Raise e).

Definition emit (ev : event) : M unit := ([ev], Return tt).

(** An outcome decided by the outside: a server's answer, the parser's
    verdict on a body, an interrupt during a sleep. *)
Definition outcome {A} (r : result A) : M A := ([], r).

Definition bind {A B} (m : M A) (k : A -> M B) : M B :=
  match m with
  | (ev, Return a) => let '(ev', r) := k a in (ev ++ ev', r)
  | (ev, Raise e) => (ev, Raise e)
  end.

Notation "x <- m ;; k" := (bind m (fun x => k))
  (at level 100, m at next level, k at level 200, right associativity).
Notation "m ;; k" := (bind m (fun _ => k))
  (at level 100, k at level 200, right associativity).

(** [try: m  except ...]: [handler e] is the body of the first [except]
    clause that catches [e], [None] when no clause does. *)
Definition try_except {A} (m : M A) (handler : exn -> option (M A)) : M A :=
  match m with
  | (ev, Raise e) =>
      match handler e with
      | Some h => let '(ev', r) := h in (ev ++ ev', r)
      | None => m
      end
  | _ => m
  end.

Definition events {A} (m : M A) : list event := fst m.

Definition returned {A} (m : M A) : result A := snd m.

(** ** What the outside answers during one pass of the loop *)

(** A response of [requests.get]: its status code, and what
    [BeautifulSoup(response.content, 'html.parser')] makes of its body (a
    document, or an exception of the parser). *)
Record response := {
  status_code : Z;
  html_parser : result (list bs4.PageElement)
}.

(** The relay's answer to each step of an SMTP session. *)
Record smtp_relay := {
  connect : result unit;
  starttls : result unit;
  login : result unit;
  send_message : result unit;
  quit : result unit
}.

(** One pass of the loop: the outcome of the GET, the relay as it would
    answer if contacted, and whether the sleep returns or is interrupted. *)
Record tick := {
  http_get : result response;
  smtp : smtp_relay;
  sleep : result unit
}.

(** ** class PokemonStockMonitor *)

Record PokemonStockMonitor := {
  url : string;
  email_config : option (gmap string pyval)
}.

(** Line 23, the only entry of [self.headers]. *)
Definition user_agent : string :=
  "Mozilla/5.0 (Windows NT 10.0; Win64; x64) AppleWebKit/537.36 (KHTML, like Gecko) Chrome/91.0.4472.124 Safari/537.36".

(** [response.raise_for_status()]: [HTTPError] for a client or server error
    status, nothing otherwise. *)
Definition raise_for_status (r : response) : M unit :=
  if (400 <=? status_code r) && (status_code r <? 600)
  then raise (HTTPError (status_code r))
  else ret tt.

Section Monitor.

Variable absent_matches_empty : bool.

(** Lines 26-77.  The result is the pair [(in_stock, status_code)], the
    status being [None] on the path of the handler. *)
Definition check_stock (self : PokemonStockMonitor) (get : result response)
  : M (bool * option Z) :=
  try_except
    (emit (HttpGet (url self) user_agent 10) ;;
     response <- outcome get ;;
     raise_for_status response ;;
     soup <- outcome (html_parser response) ;;
     let '(in_stock, button_status) := classify absent_matches_empty soup in
     emit (Log DEBUG (ButtonStatus button_status)) ;;
     ret (in_stock, Some (status_code response)))
    (fun e =>
       if is_RequestException e
       then Some (emit (Log ERROR (ErrorCheckingStock e)) ;; ret (false, None))
       else None).

End Monitor.

(** [d[key]]. *)
Definition getitem (d : gmap string pyval) (key : string) : M pyval :=
  match d !! key with
  | Some v => ret v
  | None => raise (KeyError key)
  end.

Definition newline : string := String (ascii_of_nat 10) EmptyString.

Definition indent : string := "            ".

(** Lines 91-99. *)
Definition email_body (message url : string) : string :=
  newline
  +:+ indent +:+ "Good news! The product you're monitoring is now available:" +:+ newline
  +:+ indent +:+ newline
  +:+ indent +:+ message +:+ newline
  +:+ indent +:+ newline
  +:+ indent +:+ "Product URL: " +:+ url +:+ newline
  +:+ indent +:+ newline
  +:+ indent +:+ "Hurry and grab it before it sells out again!" +:+ newline
  +:+ indent.

(** Lines 86-109, the body of the [try]. *)
Definition send_email (self : PokemonStockMonitor) (config : gmap string pyval)
    (message : string) (relay : smtp_relay) : M unit :=
  from_email <- getitem config "from_email" ;;
  to_email <- getitem config "to_email" ;;
  let msg := {| msg_from := from_email; msg_to := to_email;
                msg_subject := "Pokémon Center Stock Alert!";
                msg_body := email_body message (url self) |} in
  smtp_server <- getitem config "smtp_server" ;;
  smtp_port <- getitem config "smtp_port" ;;
  emit (Smtp (Connect smtp_server smtp_port)) ;;
  outcome (connect relay) ;;
  emit (Smtp StartTls) ;;
  outcome (starttls relay) ;;
  user <- getitem config "from_email" ;;
  password <- getitem config "password" ;;
  emit (Smtp (Login user password)) ;;
  outcome (login relay) ;;
  emit (Smtp (SendMessage msg)) ;;
  outcome (send_message relay) ;;
  emit (Smtp Quit) ;;
  outcome (quit relay) ;;
  emit (Log INFO EmailSent).

(** Line 81: [not self.email_config or not self.email_config.get('enabled', True)].
    The result is the dictionary to use when e-mail is on. *)
Definition email_enabled (self : PokemonStockMonitor) : option (gmap string pyval) :=
  match email_config self with
  | None => None
  | Some config =>
      if bool_decide (config = ∅) then None
      else
        match config !! "enabled" with
        | Some v => if pyval_truthy v then Some config else None
        | None => Some config
        end
  end.

(** Lines 79-113. *)
Definition send_notification (self : PokemonStockMonitor) (message : string)
    (relay : smtp_relay) : M unit :=
  emit (SendNotification message) ;;
  match email_enabled self with
  | None => emit (Console (StockAlert message))
  | Some config =>
      try_except (send_email self config message relay)
        (fun e =>
           if is_Exception e
           then Some (emit (Log ERROR (FailedToSendEmail e)) ;;
                      emit (Console (StockAlert message)))
           else None)
  end.

(** [time.sleep(secs)]: [ValueError] for a negative length; otherwise the
    sleep returns, unless the operator interrupts it. *)
Definition time_sleep (secs : Z) (interrupt : result unit) : M unit :=
  if secs <? 0 then raise ValueError
  else emit (Sleep secs) ;; outcome interrupt.

(** Line 127. *)
Definition back_in_stock : string := "🎉 Pokémon product is BACK IN STOCK!".

(** How one pass of [while True] ends. *)
Inductive control := Continue | Break.

(** The two states of the loop driver.  [POLLING] at the end of a run says
    that the ticks given ran out with the loop still going. *)
Inductive loop_state := POLLING | DONE.

Section Loop.

Variable absent_matches_empty : bool.

(** Lines 121-143, one pass of the loop.  [if status_code:] is false for
    [None] and for [0]. *)
Definition iteration (self : PokemonStockMonitor) (check_interval : Z) (t : tick)
  : M control :=
  try_except
    (checked <- check_stock absent_matches_empty self (http_get t) ;;
     let '(in_stock, status_code) := checked in
     match status_code with
     | Some status =>
         if negb (status =? 0) then
           if in_stock : bool then
             emit (Log INFO BackInStock) ;;
             send_notification self back_in_stock (smtp t) ;;
             ret Break
           else
             emit (Log INFO (StillOutOfStock status)) ;;
             time_sleep check_interval (sleep t) ;;
             ret Continue
         else
           emit (Log WARNING FailedToCheckStock) ;;
           time_sleep check_interval (sleep t) ;;
           ret Continue
     | None =>
         emit (Log WARNING FailedToCheckStock) ;;
         time_sleep check_interval (sleep t) ;;
         ret Continue
     end)
    (fun e =>
       match e with
       | KeyboardInterrupt =>
           Some (emit (Log INFO StoppedByUser) ;; ret Break)
       | _ =>
           Some (emit (Log ERROR (UnexpectedError e)) ;;
                 time_sleep check_interval (sleep t) ;;
                 ret Continue)
       end).

(** The [while True] loop, run over the ticks given. *)
Fixpoint polling (self : PokemonStockMonitor) (check_interval : Z) (ticks : list tick)
  : M loop_state :=
  match ticks with
  | [] => ret POLLING
  | t :: ticks' =>
      c <- iteration self check_interval t ;;
      match c with
      | Break => ret DONE
      | Continue => polling self check_interval ticks'
      end
  end.

(** Lines 115-143. *)
Definition monitor (self : PokemonStockMonitor) (check_interval : Z) (ticks : list tick)
  : M loop_state :=
  emit (Log INFO (StartingToMonitor (url self))) ;;
  emit (Log INFO (CheckInterval check_interval)) ;;
  polling self check_interval ticks.

End Loop.

(** ** load_config and main *)

(** [not os.getenv(var)]: the variable is unset or empty. *)
Definition unset (env : gmap string string) (var : string) : bool :=
  match env !! var with
  | Some v => negb (py.truthy v)
  | None => true
  end.

(** What [load_config] returns: the pair [(None, None)] of line 159, or the
    triple of line 197. *)
Inductive config :=
| NoConfig
| Config (url : string) (email_config : option (gmap string pyval)) (check_interval : Z).

(** [config[0]]. *)
Definition config_url (c : config) : option string :=
  match c with
  | NoConfig => None
  | Config url _ _ => Some url
  end.

Fixpoint print_vars (vars : list string) : M unit :=
  match vars with
  | [] => ret tt
  | var :: vars' => emit (Console (MissingVar var)) ;; print_vars vars'
  end.

(** Lines 145-197. *)
Definition load_config (env : gmap string string) : M config :=
  let required_vars := ["PRODUCT_URL"] in
  let missing_vars := List.filter (unset env) required_vars in
  match missing_vars with
  | _ :: _ =>
      emit (Console MissingRequired) ;;
      print_vars missing_vars ;;
      emit (Console PleaseHeader) ;;
      emit (Console PleaseCopy) ;;
      emit (Console PleaseFill) ;;
      emit (Console PleaseRunAgain) ;;
      ret NoConfig
  | [] =>
      let url := default "" (env !! "PRODUCT_URL") in
      check_interval <-
        match py.int (default "90" (env !! "CHECK_INTERVAL")) with
        | Some n => ret n
        | None => emit (Console InvalidCheckInterval) ;; ret 90
        end ;;
      let email_enabled :=
        String.eqb (py.lower (default "true" (env !! "EMAIL_NOTIFICATIONS"))) "true" in
      email_config <-
        (if email_enabled then
           let email_vars :=
             ["SMTP_SERVER"; "SMTP_PORT"; "FROM_EMAIL"; "EMAIL_PASSWORD"; "TO_EMAIL"] in
           let missing_email_vars := List.filter (unset env) email_vars in
           match missing_email_vars with
           | _ :: _ =>
               emit (Console EmailDisabledMissing) ;;
               print_vars missing_email_vars ;;
               emit (Console EmailHint) ;;
               ret None
           | [] =>
               match py.int (default "" (env !! "SMTP_PORT")) with
               | Some port =>
                   ret (Some
                     (<["smtp_server" := PStr (default "" (env !! "SMTP_SERVER"))]>
                     (<["smtp_port" := PInt port]>
                     (<["from_email" := PStr (default "" (env !! "FROM_EMAIL"))]>
                     (<["password" := PStr (default "" (env !! "EMAIL_PASSWORD"))]>
                     (<["to_email" := PStr (default "" (env !! "TO_EMAIL"))]>
                     (<["enabled" := PBool true]> (∅ : gmap string pyval))))))))
               | None => emit (Console InvalidSmtpPort) ;; ret None
               end
           end
         else ret None) ;;
      ret (Config url email_config check_interval)
  end.

Section Main.

Variable absent_matches_empty : bool.

(** Lines 199-226.  The result is [None] when [main] returns at line 206,
    before a monitor exists, and the state the loop ended in otherwise. *)
Definition main (env : gmap string string) (ticks : list tick) : M (option loop_state) :=
  emit (Console Banner) ;;
  emit (Console RuleEquals) ;;
  config <- load_config env ;;
  match config with
  | NoConfig => ret None
  | Config url email_config check_interval =>
      let monitor_instance := {| url := url; email_config := email_config |} in
      emit (Console (MonitoringUrl url)) ;;
      emit (Console (CheckIntervalLine check_interval)) ;;
      match email_config with
      | Some d =>
          if bool_decide (d = ∅) then emit (Console EmailConsoleOnly)
          else to_email <- getitem d "to_email" ;; emit (Console (EmailEnabled to_email))
      | None => emit (Console EmailConsoleOnly)
      end ;;
      emit (Console StartingMonitor) ;;
      emit (Console RuleDashes) ;;
      st <- monitor absent_matches_empty monitor_instance check_interval ticks ;;
      ret (Some st)
  end.

End Main.

(** ** test_email.py *)

Declare Scope test_email_scope.

Module test_email.

(** What the test script does to the outside: it prints, it talks to the
    relay, it asks the operator. *)
Inductive action :=
| Say (text : string)
| SayValue (text : string) (v : pyval)
| SayError (text : string) (e : exn)
| Mail (op : smtp_op)
| Ask (prompt : string).

(** A computation of the script: its actions, then how it ended. *)
Definition T (A : Type) : Type := list action * result A.

Definition ret {A} (a : A) : T A := ([], Return a).

Definition raise {A} (e : exn) : T A := ([], Raise e).

Definition act (a : action) : T unit := ([a], Return tt).

Definition say (text : string) : T unit := act (Say text).

Definition outcome {A} (r : result A) : T A := ([], r).

Definition bind {A B} (m : T A) (k : A -> T B) : T B :=
  match m with
  | (ev, Return a) => let '(ev', r) := k a in (ev ++ ev', r)
  | (ev, Raise e) => (ev, Raise e)
  end.

Notation "x <- m ;; k" := (bind m (fun x => k))
  (at level 100, m at next level, k at level 200, right associativity) : test_email_scope.
Notation "m ;; k" := (bind m (fun _ => k))
  (at level 100, k at level 200, right associativity) : test_email_scope.

Local Open Scope test_email_scope.

Definition try_except {A} (m : T A) (handler : exn -> option (T A)) : T A :=
  match m with
  | (ev, Raise e) =>
      match handler e with
      | Some h => let '(ev', r) := h in (ev ++ ev', r)
      | None => m
      end
  | _ => m
  end.

Definition actions {A} (m : T A) : list action := fst m.

Definition returned {A} (m : T A) : result A := snd m.

Definition getitem (d : gmap string pyval) (key : string) : T pyval :=
  match d !! key with
  | Some v => ret v
  | None => raise (KeyError key)
  end.



Fixpoint say_vars (vars : list string) : T unit :=
  match vars with
  | [] => ret tt
  | var :: vars' => say ("   - " +:+ var) ;; say_vars vars'
  end.

(** Lines 11-48. *)
Definition load_email_config (env : gmap string string) : T (option (gmap string pyval)) :=
  let email_enabled :=
    String.eqb (py.lower (default "true" (env !! "EMAIL_NOTIFICATIONS"))) "true" in
  if negb email_enabled then
    say "❌ Email notifications are disabled in your .env file" ;;
    say "💡 Set EMAIL_NOTIFICATIONS=true to enable email testing" ;;
    ret None
  else
    let email_vars := ["SMTP_SERVER"; "SMTP_PORT"; "FROM_EMAIL"; "EMAIL_PASSWORD"; "TO_EMAIL"] in
    let missing_vars := List.filter (unset env) email_vars in
    match missing_vars with
    | _ :: _ =>
        say "❌ Missing required email configuration in .env file:" ;;
        say_vars missing_vars ;;
        say (newline +:+ "📋 Please add these variables to your .env file:") ;;
        say "   SMTP_SERVER=smtp.gmail.com" ;;
        say "   SMTP_PORT=587" ;;
        say "   FROM_EMAIL=your-email@gmail.com" ;;
        say "   EMAIL_PASSWORD=your-gmail-app-password" ;;
        say "   TO_EMAIL=your-email@gmail.com" ;;
        ret None
    | [] =>
        match py.int (default "" (env !! "SMTP_PORT")) with
        | Some port =>
            ret (Some
              (<["smtp_server" := PStr (default "" (env !! "SMTP_SERVER"))]>
              (<["smtp_port" := PInt port]>
              (<["from_email" := PStr (default "" (env !! "FROM_EMAIL"))]>
              (<["password" := PStr (default "" (env !! "EMAIL_PASSWORD"))]>
              (<["to_email" := PStr (default "" (env !! "TO_EMAIL"))]>
              (∅ : gmap string pyval)))))))
        | None =>
            say "❌ Invalid SMTP_PORT value in .env file (must be a number)" ;;
            ret None
        end
    end.

(** [not email_config]: [None], or an empty dictionary. *)
Definition usable (config : option (gmap string pyval)) : option (gmap string pyval) :=
  match config with
  | Some d => if bool_decide (d = ∅) then None else Some d
  | None => None
  end.

Definition indent : string := "        ".



(** Lines 145-155. *)
Definition preview_body (product_url : string) : string :=
  newline
  +:+ indent +:+ "Good news! The product you're monitoring is now available:" +:+ newline
  +:+ indent +:+ newline
  +:+ indent +:+ "🎉 Pokémon product is BACK IN STOCK!" +:+ newline
  +:+ indent +:+ newline
  +:+ indent +:+ "Product URL: " +:+ product_url +:+ newline
  +:+ indent +:+ newline
  +:+ indent +:+ "Hurry and grab it before it sells out again!" +:+ newline
  +:+ indent +:+ newline
  +:+ indent +:+ "(This is a test email - the product may not actually be in stock)" +:+ newline
  +:+ indent.

(** Lines 129-171. *)
Definition test_stock_alert_format (env : gmap string string) (relay : smtp_relay) : T bool :=
  email_config <- load_email_config env ;;
  match usable email_config with
  | None => ret false
  | Some config =>
      try_except
        (from_email <- getitem config "from_email" ;;
         to_email <- getitem config "to_email" ;;
         let product_url :=
           default "https://www.pokemoncenter.com/product/example" (env !! "PRODUCT_URL") in
         let msg := {| msg_from := from_email; msg_to := to_email;
                       msg_subject := "Pokémon Center Stock Alert!";
                       msg_body := preview_body product_url |} in
         smtp_server <- getitem config "smtp_server" ;;
         smtp_port <- getitem config "smtp_port" ;;
         act (Mail (Connect smtp_server smtp_port)) ;;
         outcome (connect relay) ;;
         act (Mail StartTls) ;;
         outcome (starttls relay) ;;
         user <- getitem config "from_email" ;;
         password <- getitem config "password" ;;
         act (Mail (Login user password)) ;;
         outcome (login relay) ;;
         act (Mail (SendMessage msg)) ;;
         outcome (send_message relay) ;;
         act (Mail Quit) ;;
         outcome (quit relay) ;;
         say "✅ Stock alert test email sent!" ;;
         say "📱 Check your inbox - this is exactly what you'll receive when the item restocks!" ;;
         ret true)
        (fun e =>
           if is_Exception e
           then Some (act (SayError "❌ Error sending stock alert test: " e) ;; ret false)
           else None)
  end.





End test_email.

(** * Reading the model *)

(** ** What the four searches of [check_stock] look for *)

Definition is_button (el : bs4.PageElement) : bool :=
  match bs4.tag_name el with
  | Some n => String.eqb n "button"
  | None => false
  end.

(** [name] occurs in the value of the attribute: in a string value, or in
    the tokens of a multi-valued one joined by spaces. *)
Definition value_contains (v : option bs4.attr_value) (name : string) : bool :=
  match v with
  | Some (bs4.Str s) => py.contains s name
  | Some (bs4.Tokens l) => py.contains (py.join l) name
  | None => false
  end.

(** The value of the attribute is [s]: as a string, as one of the tokens,
    or as the tokens joined. *)
Definition value_equals (v : option bs4.attr_value) (s : string) : bool :=
  match v with
  | Some (bs4.Str x) => String.eqb x s
  | Some (bs4.Tokens l) =>
      existsb (fun item => String.eqb item s) l || String.eqb (py.join l) s
  | None => false
  end.

(** The button the first search looks for (lines 36-39). *)
Definition in_stock_signature (el : bs4.PageElement) : bool :=
  is_button el
  && value_contains (bs4.get el "class") add_to_cart_class
  && value_contains (bs4.get el "class") secondary_class
  && value_equals (bs4.get el "type") "button".

(** The buttons the last search looks for (line 61). *)
Definition says (text : string) (el : bs4.PageElement) : bool :=
  is_button el
  && match bs4.string_of el with
     | Some s => String.eqb s text
     | None => false
     end.

(** [x] is the first element of [l] for which [P] holds. *)
Definition first_such {A} (P : A -> bool) (l : list A) (x : A) : Prop :=
  exists before after,
    l = before ++ x :: after /\ P x = true /\ forall y, In y before -> P y = false.

(** ** The claims of the specification, in its words *)

(** The tokens of the class attribute. *)
Definition class_tokens (el : bs4.PageElement) : list string :=
  match bs4.get el "class" with
  | Some (bs4.Tokens l) => l
  | Some (bs4.Str s) => [s]
  | None => []
  end.

(** The class attribute contains the token. *)
Definition has_class (el : bs4.PageElement) (token : string) : bool :=
  existsb (String.eqb token) (class_tokens el).

(** The attribute is present, whatever its value. *)
Definition has_attr (el : bs4.PageElement) (key : string) : bool :=
  match bs4.get el key with
  | Some _ => true
  | None => false
  end.

(** A button with both tokens, of type button, whose visible text is
    exactly "Add to Cart". *)
Definition stated_in_stock_button (el : bs4.PageElement) : bool :=
  is_button el
  && has_class el add_to_cart_class && has_class el secondary_class
  && value_equals (bs4.get el "type") "button"
  && String.eqb (bs4.get_text el) "Add to Cart".



(** ** Sample documents *)

(** [<button attrs>text</button>]. *)
Definition button (attrs : gmap string bs4.attr_value) (text : string) : bs4.PageElement :=
  bs4.Tag "button" attrs [bs4.NavigableString bs4.PlainText text].

(** The in-stock button of the comment at line 35. *)
Definition add_to_cart_button : bs4.PageElement :=
  button {[ "class" := bs4.Tokens [add_to_cart_class; "btn--ICBoB"; secondary_class];
            "type" := bs4.Str "button" ]} "Add to Cart".

Definition in_stock_page : list bs4.PageElement :=
  [ bs4.Tag "div" ∅ [ bs4.NavigableString bs4.PlainText "Plush"; add_to_cart_button ] ].

(** The out-of-stock button of the comment at line 47. *)
Definition unavailable_page : list bs4.PageElement :=
  [ button {[ "class" := bs4.Tokens [add_to_cart_class; "btn--ICBoB"; "btn-tertiary--_2uKVi"; disabled_class];
              "disabled" := bs4.Str "" ]} "Unavailable" ].

(** Two buttons with the in-stock signature, the first one disabled and
    reading "Unavailable". *)
Definition two_signature_buttons : list bs4.PageElement :=
  [ button {[ "class" := bs4.Tokens [add_to_cart_class; secondary_class];
              "type" := bs4.Str "button";
              "disabled" := bs4.Str "" ]} "Unavailable";
    add_to_cart_button ].

(** [<button disabled="">Add to Cart</button>]. *)
Definition disabled_add_to_cart : bs4.PageElement :=
  button {[ "disabled" := bs4.Str "" ]} "Add to Cart".



(** [<button>Unavailable</button>]: no disabled attribute at all. *)
Definition enabled_unavailable_page : list bs4.PageElement :=
  [ button ∅ "Unavailable" ].


(** ** Reading a run *)

(** A call of [send_notification]. *)
Definition is_notification (ev : event) : bool :=
  match ev with
  | SendNotification _ => true
  | _ => false
  end.

(** A check of the page. *)
Definition is_check (ev : event) : bool :=
  match ev with
  | HttpGet _ _ _ => true
  | _ => false
  end.

Definition count (p : event -> bool) (l : list event) : nat :=
  length (List.filter p l).

(** The request that one call of [check_stock] makes (line 29). *)
Definition request (self : PokemonStockMonitor) : event :=
  HttpGet (url self) user_agent 10.

(** Neither a check nor a notification. *)
Definition quiet (l : list event) : bool :=
  forallb (fun ev => negb (is_notification ev) && negb (is_check ev)) l.

(** The error of the fetch that the handler of [check_stock] catches: an
    exception of the [requests] family raised by the GET, or the
    [HTTPError] that [raise_for_status] raises for a 4xx or 5xx status. *)
Definition fetch_error (get : result response) : option exn :=
  match get with
  | Raise e => if is_RequestException e then Some e else None
  | Return r =>
      if (400 <=? status_code r) && (status_code r <? 600)
      then Some (HTTPError (status_code r))
      else None
  end.

(** Any error the handler of [check_stock] catches: an error of the fetch,
    or an exception of the [requests] family raised later in the [try]. *)
Definition caught_error (get : result response) : option exn :=
  match fetch_error get, get with
  | Some e, _ => Some e
  | None, Return r =>
      match html_parser r with
      | Raise e => if is_RequestException e then Some e else None
      | Return _ => None
      end
  | None, Raise _ => None
  end.

(** The fetch fails in the words of the specification: a timeout, a
    connection failure, or a status outside 200..299. *)
Definition stated_fetch_failure (get : result response) : bool :=
  match get with
  | Raise (ConnectTimeout | ReadTimeout | ConnectionError) => true
  | Raise _ => false
  | Return r => negb ((200 <=? status_code r) && (status_code r <? 300))
  end.

(** ** Sample runs *)

Definition pokemon_center : PokemonStockMonitor :=
  {| url := "https://www.pokemoncenter.com/product/701-29495"; email_config := None |}.

Definition gmail : gmap string pyval :=
  {[ "smtp_server" := PStr "smtp.gmail.com"; "smtp_port" := PInt 587;
     "from_email" := PStr "ash@example.com"; "password" := PStr "pikachu";
     "to_email" := PStr "misty@example.com"; "enabled" := PBool true ]}.

Definition with_email : PokemonStockMonitor :=
  {| url := "https://www.pokemoncenter.com/product/701-29495"; email_config := Some gmail |}.

(** A configuration whose port is out of range. *)
Definition bad_port : PokemonStockMonitor :=
  {| url := "https://www.pokemoncenter.com/product/701-29495";
     email_config := Some (<["smtp_port" := PInt 99999]> gmail) |}.

Definition relay_ok : smtp_relay :=
  {| connect := Return tt; starttls := Return tt; login := Return tt;
     send_message := Return tt; quit := Return tt |}.

(** A relay that cannot be reached: the connection fails. *)
Definition relay_unreachable : smtp_relay :=
  {| connect := Raise OSError; starttls := Return tt; login := Return tt;
     send_message := Return tt; quit := Return tt |}.

Definition page (status : Z) (soup : list bs4.PageElement) : result response :=
  Return {| status_code := status; html_parser := Return soup |}.

Definition tick_out_of_stock : tick :=
  {| http_get := page 200 unavailable_page; smtp := relay_ok; sleep := Return tt |}.

Definition tick_in_stock : tick :=
  {| http_get := page 200 in_stock_page; smtp := relay_ok; sleep := Return tt |}.

Definition tick_timeout : tick :=
  {| http_get := Raise ReadTimeout; smtp := relay_ok; sleep := Return tt |}.

(** A body that the parser rejects. *)
Definition tick_unparsable : tick :=
  {| http_get := Return {| status_code := 200; html_parser := Raise ParserRejectedMarkup |};
     smtp := relay_ok; sleep := Return tt |}.

(** A 300 (Multiple Choices) answer whose body shows the in-stock button. *)
Definition tick_multiple_choices : tick :=
  {| http_get := page 300 in_stock_page; smtp := relay_ok; sleep := Return tt |}.

(** An environment whose SMTP port is no number. *)
Definition env_bad_port : gmap string string :=
  {[ "PRODUCT_URL" := "https://www.pokemoncenter.com/product/701-29495";
     "SMTP_SERVER" := "smtp.gmail.com"; "SMTP_PORT" := "abc";
     "FROM_EMAIL" := "ash@example.com"; "EMAIL_PASSWORD" := "pikachu";
     "TO_EMAIL" := "misty@example.com" ]}.

(** What [load_config] prints when the product URL is missing (lines
    152-158). *)
Definition guidance : list event :=
  [ Console MissingRequired; Console (MissingVar "PRODUCT_URL"); Console PleaseHeader;
    Console PleaseCopy; Console PleaseFill; Console PleaseRunAgain ].

(** ** Further readings of the model *)

(** The button that an in-stock verdict rests on: the signature button
    whose stripped text is "Add to Cart" (line 42), or a button whose
    string is "Add to Cart" and whose disabled attribute is false in the
    sense of line 62. *)
Definition supports_in_stock (reason : string) (el : bs4.PageElement) : bool :=
  (String.eqb reason in_stock_primary
   && in_stock_signature el
   && String.eqb (py.strip (bs4.get_text el)) "Add to Cart")
  || (String.eqb reason in_stock_fallback
      && says "Add to Cart" el
      && negb (bs4.truthy (bs4.get el "disabled"))).

(** A button on which the two behaviours of the library part: it has no
    disabled attribute, and apart from that attribute it is what one of
    the two out-of-stock searches looks for. *)
Definition version_sensitive (el : bs4.PageElement) : bool :=
  is_button el
  && negb (has_attr el "disabled")
  && ((value_contains (bs4.get el "class") add_to_cart_class
       && value_contains (bs4.get el "class") disabled_class)
      || says "Unavailable" el).

Definition is_log (ev : event) : bool :=
  match ev with
  | Log _ _ => true
  | _ => false
  end.

(** Every step of the session is accepted. *)
Definition relay_accepts (relay : smtp_relay) : Prop :=
  connect relay = Return tt /\ starttls relay = Return tt /\ login relay = Return tt
  /\ send_message relay = Return tt /\ quit relay = Return tt.

(** The exception that a step of the session raises, if one does. *)
Definition relay_raises (relay : smtp_relay) (e : exn) : Prop :=
  connect relay = Raise e \/ starttls relay = Raise e \/ login relay = Raise e
  \/ send_message relay = Raise e \/ quit relay = Raise e.

(** The message that [send_email] hands to the relay. *)
Definition alert_email (self : PokemonStockMonitor) (from_email to_email : pyval)
    (message : string) : email :=
  {| msg_from := from_email; msg_to := to_email;
     msg_subject := "Pokémon Center Stock Alert!";
     msg_body := email_body message (url self) |}.

(** The e-mail variables of the environment are usable: notifications are
    not switched off, the five variables are set, the port is a number. *)
Definition email_usable (env : gmap string string) : bool :=
  String.eqb (py.lower (default "true" (env !! "EMAIL_NOTIFICATIONS"))) "true"
  && forallb (fun var => negb (unset env var))
       ["SMTP_SERVER"; "SMTP_PORT"; "FROM_EMAIL"; "EMAIL_PASSWORD"; "TO_EMAIL"]
  && match py.int (default "" (env !! "SMTP_PORT")) with
     | Some _ => true
     | None => false
     end.

(** A complete environment, and the same with a negative interval. *)
Definition env_complete : gmap string string :=
  {[ "PRODUCT_URL" := "https://www.pokemoncenter.com/product/701-29495";
     "CHECK_INTERVAL" := "30";
     "SMTP_SERVER" := "smtp.gmail.com"; "SMTP_PORT" := "587";
     "FROM_EMAIL" := "ash@example.com"; "EMAIL_PASSWORD" := "pikachu";
     "TO_EMAIL" := "misty@example.com" ]}.


(** A sleep that the operator interrupts. *)
Definition tick_interrupted_sleep : tick :=
  {| http_get := page 200 unavailable_page; smtp := relay_ok;
     sleep := Raise KeyboardInterrupt |}.

(** A request that the operator interrupts. *)
Definition tick_interrupted_request : tick :=
  {| http_get := Raise KeyboardInterrupt; smtp := relay_ok; sleep := Return tt |}.

(** A body that the parser rejects, then an interrupt during the sleep of
    the handler. *)
Definition tick_unparsable_interrupted : tick :=
  {| http_get := Return {| status_code := 200; html_parser := Raise ParserRejectedMarkup |};
     smtp := relay_ok; sleep := Raise KeyboardInterrupt |}.

(** A relay whose login is interrupted by the operator. *)
Definition relay_interrupted : smtp_relay :=
  {| connect := Return tt; starttls := Return tt; login := Raise KeyboardInterrupt;
     send_message := Return tt; quit := Return tt |}.

Definition is_console (ev : event) : bool :=
  match ev with
  | Console _ => true
  | _ => false
  end.

(** Line 166-168: the interval of the environment, 90 when the variable is
    unset or no integer. *)
Definition env_check_interval (env : gmap string string) : Z :=
  match py.int (default "90" (env !! "CHECK_INTERVAL")) with
  | Some n => n
  | None => 90
  end.


(** The dictionary of lines 186-193. *)
Definition email_dict (smtp_server : string) (smtp_port : Z)
    (from_email password to_email : string) : gmap string pyval :=
  <["smtp_server" := PStr smtp_server]>
  (<["smtp_port" := PInt smtp_port]>
  (<["from_email" := PStr from_email]>
  (<["password" := PStr password]>
  (<["to_email" := PStr to_email]>
  (<["enabled" := PBool true]> (∅ : gmap string pyval)))))).

(** ** Reading a run of the test script *)

(** The dictionary of lines 38-44 of test_email.py: the one of the monitor
    without its [enabled] key. *)
Definition tested_dict (smtp_server : string) (smtp_port : Z)
    (from_email password to_email : string) : gmap string pyval :=
  <["smtp_server" := PStr smtp_server]>
  (<["smtp_port" := PInt smtp_port]>
  (<["from_email" := PStr from_email]>
  (<["password" := PStr password]>
  (<["to_email" := PStr to_email]> (∅ : gmap string pyval))))).

Definition is_mail (a : test_email.action) : bool :=
  match a with
  | test_email.Mail _ => true
  | _ => false
  end.

(** The messages handed to a relay, in order. *)
Fixpoint messages (l : list test_email.action) : list email :=
  match l with
  | [] => []
  | test_email.Mail (SendMessage msg) :: l' => msg :: messages l'
  | _ :: l' => messages l'
  end.




Definition alert_subject : string := "Pokémon Center Stock Alert!".



(** ** Tactics *)

(** Bring a list of events to the form [ev ++ x :: tail], then give the
    tail; what is left is the case where the sleep returns. *)
Ltac flatten_events := rewrite <- ?app_assoc; cbn [app].
Ltac split_run :=
  flatten_events; eexists; split; [reflexivity|]; split; [reflexivity|].



(** * Properties *)

(** ** Substrings *)

Section Substrings.

Lemma prefix_empty (s : string) : String.prefix EmptyString s = true.
Proof. now destruct s. Qed.

Lemma prefix_app (n h s : string) :
  String.prefix n h = true -> String.prefix n (h +:+ s) = true.
Proof.
  revert n. induction h as [|c h IH]; intros [|d n]; simpl; try easy.
  - intros _. apply prefix_empty.
  - destruct (ascii_dec d c); [apply IH | easy].
Qed.

Lemma prefix_refl (s : string) : String.prefix s s = true.
Proof.
  induction s as [|c s IH]; simpl; [easy|].
  destruct (ascii_dec c c); [exact IH | congruence].
Qed.

Lemma contains_prefix (h n : string) :
  String.prefix n h = true -> py.contains h n = true.
Proof. intros H. destruct h; cbn [py.contains]; rewrite H; easy. Qed.

Lemma contains_refl (s : string) : py.contains s s = true.
Proof. apply contains_prefix, prefix_refl. Qed.

Lemma contains_app_l (h s n : string) :
  py.contains h n = true -> py.contains (h +:+ s) n = true.
Proof.
  induction h as [|c h IH]; cbn [py.contains].
  - rewrite orb_false_r. intros H. destruct n; [|easy]. apply contains_prefix, prefix_empty.
  - intros H. apply orb_true_iff in H as [H|H].
    + apply contains_prefix. now apply prefix_app.
    + change (String c h +:+ s) with (String c (h +:+ s)). cbn [py.contains].
      rewrite (IH H). apply orb_true_r.
Qed.

Lemma contains_app_r (p h n : string) :
  py.contains h n = true -> py.contains (p +:+ h) n = true.
Proof.
  intros H. induction p as [|c p IH]; [exact H|].
  change (String c p +:+ h) with (String c (p +:+ h)). cbn [py.contains].
  rewrite IH. apply orb_true_r.
Qed.

Lemma contains_join (l : list string) (tok n : string) :
  In tok l -> py.contains tok n = true -> py.contains (py.join l) n = true.
Proof.
  unfold py.join. intros Hin Hn. induction l as [|x l IH]; [easy|].
  destruct Hin as [->|Hin].
  - destruct l; cbn [String.concat]; [exact Hn|]. now apply contains_app_l.
  - destruct l as [|y l]; [easy|]. cbn [String.concat].
    apply contains_app_r, contains_app_r. exact (IH Hin).
Qed.

Lemma contains_nonempty (s n : string) :
  n <> EmptyString -> py.contains s n = true -> py.truthy s = true.
Proof. destruct s; [|easy]. destruct n; simpl; congruence. Qed.

End Substrings.

(** ** The searches *)

Section Searches.

Variable absent_matches_empty : bool.

Lemma matches_both_in (v : option bs4.attr_value) (a b : string) :
  a <> EmptyString ->
  bs4.matches absent_matches_empty v (bs4.Fn (both_in a b))
  = value_contains v a && value_contains v b.
Proof.
  intros Ha. destruct v as [[s|l]|]; simpl; [| |easy].
  - destruct (py.contains s a) eqn:E; [|now rewrite andb_false_r].
    now rewrite (contains_nonempty _ _ Ha E).
  - destruct (py.contains (py.join l) a) eqn:Ea;
      destruct (py.contains (py.join l) b) eqn:Eb; simpl;
      try (rewrite (contains_nonempty _ _ Ha Ea); simpl);
      rewrite ?orb_true_r, ?andb_false_r, ?orb_false_r; try easy.
    all: apply not_true_is_false; intros H; apply existsb_exists in H as (x & Hx & H).
    all: destruct (py.contains x a) eqn:Exa; [|now rewrite andb_false_r in H].
    all: destruct (py.contains x b) eqn:Exb; [|now rewrite andb_false_r in H].
    all: pose proof (contains_join _ _ _ Hx Exa); pose proof (contains_join _ _ _ Hx Exb).
    all: congruence.
Qed.

Lemma matches_exact (v : option bs4.attr_value) (s : string) :
  s <> EmptyString ->
  bs4.matches absent_matches_empty v (bs4.Exact s) = value_equals v s.
Proof.
  intros Hs. destruct v as [[x|l]|]; simpl; try easy.
  destruct s; [congruence|]. simpl. apply andb_false_r.
Qed.

Lemma in_stock_search (el : bs4.PageElement) :
  bs4.search_tag absent_matches_empty "button"
    [ ("class", bs4.Fn (both_in add_to_cart_class secondary_class));
      ("type", bs4.Exact "button") ] None el
  = in_stock_signature el.
Proof.
  destruct el as [c s|n attrs contents]; [easy|].
  unfold bs4.search_tag, in_stock_signature, is_button. cbn [forallb fst snd bs4.tag_name].
  rewrite matches_both_in, matches_exact by easy.
  rewrite !andb_true_r, !andb_assoc. reflexivity.
Qed.

Lemma fallback_search (text : string) (el : bs4.PageElement) :
  text <> EmptyString ->
  bs4.search_tag absent_matches_empty "button" [] (Some text) el = says text el.
Proof.
  intros Ht. destruct el as [c s|n attrs contents]; [easy|].
  unfold bs4.search_tag, says, is_button. cbn [forallb bs4.tag_name bs4.matches_string].
  rewrite andb_true_r. f_equal.
  destruct (bs4.string_of _); [easy|].
  destruct text; [congruence|]. simpl. apply andb_false_r.
Qed.

End Searches.

Lemma find_first_such {A} (P : A -> bool) (l : list A) (x : A) :
  first_such P l x -> List.find P l = Some x.
Proof.
  intros (before & after & -> & Hx & Hb).
  induction before as [|y before IH]; simpl.
  - now rewrite Hx.
  - rewrite (Hb y) by now left. apply IH. intros z Hz. apply Hb. now right.
Qed.

Lemma find_is_first {A} (P : A -> bool) (l : list A) (x : A) :
  List.find P l = Some x -> first_such P l x.
Proof.
  induction l as [|y l IH]; simpl; [easy|].
  destruct (P y) eqn:Ey.
  - intros [= ->]. exists [], l. easy.
  - intros H. destruct (IH H) as (before & after & -> & Hx & Hb).
    exists (y :: before), after. repeat split; [easy|].
    intros z [<-|Hz]; auto.
Qed.


Lemma find_ext_fun {A} (P Q : A -> bool) (l : list A) :
  (forall x, P x = Q x) -> List.find P l = List.find Q l.
Proof.
  intros H. induction l as [|y l IH]; simpl; [easy|]. now rewrite H, IH.
Qed.

(** ** The stock classifier *)

Section ClassifierFacts.

Variable absent_matches_empty : bool.

Lemma in_stock_button_first (soup : list bs4.PageElement) (button : bs4.PageElement) :
  first_such in_stock_signature (bs4.soup_descendants soup) button ->
  in_stock_button absent_matches_empty soup = Some button.
Proof.
  intros H. unfold in_stock_button, bs4.find.
  rewrite (find_ext_fun _ in_stock_signature) by apply in_stock_search.
  now apply find_first_such.
Qed.


(** Line 42 compares the stripped text. *)
Lemma classify_in_stock_primary (soup : list bs4.PageElement) (button : bs4.PageElement) :
  in_stock_button absent_matches_empty soup = Some button ->
  py.strip (bs4.get_text button) = "Add to Cart" ->
  classify absent_matches_empty soup = (true, in_stock_primary).
Proof.
  intros Hb Ht. unfold classify, in_stock_button_says_add_to_cart.
  now rewrite Hb, Ht.
Qed.




(** The searches return the first match, and nothing else. *)
Lemma in_stock_button_is_first (soup : list bs4.PageElement) (button : bs4.PageElement) :
  in_stock_button absent_matches_empty soup = Some button <->
  first_such in_stock_signature (bs4.soup_descendants soup) button.
Proof.
  split; [|apply in_stock_button_first].
  unfold in_stock_button, bs4.find.
  rewrite (find_ext_fun _ in_stock_signature) by apply in_stock_search.
  apply find_is_first.
Qed.

(** The last branch: no pattern matches, and the first "Add to Cart"
    button, if there is one, has a disabled attribute that is true. *)
Lemma classify_unknown (soup : list bs4.PageElement) :
  in_stock_button_says_add_to_cart absent_matches_empty soup = false ->
  found (out_of_stock_button absent_matches_empty soup) = false ->
  found (unavailable_button absent_matches_empty soup) = false ->
  match fallback_cart_button absent_matches_empty soup with
  | Some button => bs4.truthy (bs4.get button "disabled") = true
  | None => True
  end ->
  classify absent_matches_empty soup = (false, unknown).
Proof.
  intros Hp Ho Hu Hf. unfold classify. rewrite Hp, Ho, Hu.
  destruct (fallback_cart_button absent_matches_empty soup); [|easy].
  now rewrite Hf.
Qed.

(** The verdict and the reason agree: in stock exactly under the two
    in-stock reasons. *)
Lemma classify_reason (soup : list bs4.PageElement) :
  classify absent_matches_empty soup = (true, in_stock_primary)
  \/ classify absent_matches_empty soup = (false, out_of_stock_primary)
  \/ classify absent_matches_empty soup = (true, in_stock_fallback)
  \/ classify absent_matches_empty soup = (false, unknown).
Proof.
  unfold classify.
  destruct (in_stock_button_says_add_to_cart absent_matches_empty soup); [auto|].
  destruct (found (out_of_stock_button absent_matches_empty soup)
            || found (unavailable_button absent_matches_empty soup)); [auto|].
  destruct (fallback_cart_button absent_matches_empty soup) as [button|]; [|auto].
  destruct (negb (bs4.truthy (bs4.get button "disabled"))); auto.
Qed.

End ClassifierFacts.

(** The one point on which the versions of the library differ shows on a
    button that reads "Unavailable" and has no disabled attribute: the
    older matching takes the search for [disabled=''] to match it. *)
Example enabled_unavailable_button :
  classify true enabled_unavailable_page = (false, out_of_stock_primary)
  /\ classify false enabled_unavailable_page = (false, unknown).
Proof. split; vm_compute; reflexivity. Qed.

(** C1, as amended: when the first button of the document (in document
    order) whose class attribute contains both "add-to-cart-button--PZmQF"
    and "btn-secondary--mtUol" and whose type is "button" has visible text
    exactly "Add to Cart", the classifier returns in-stock with reason
    in-stock-primary. *)
Theorem C1_first_signature_button_decides
    (absent_matches_empty : bool) (soup : list bs4.PageElement) (button : bs4.PageElement) :
  first_such in_stock_signature (bs4.soup_descendants soup) button ->
  bs4.get_text button = "Add to Cart" ->
  classify absent_matches_empty soup = (true, in_stock_primary).
Proof.
  intros Hfirst Htext.
  apply (classify_in_stock_primary _ soup button).
  - now apply in_stock_button_first.
  - now rewrite Htext.
Qed.

Lemma C1_witness :
  classify true in_stock_page = (true, in_stock_primary).
Proof.
  apply (C1_first_signature_button_decides true in_stock_page add_to_cart_button).
  - exists [ bs4.Tag "div" ∅ [ bs4.NavigableString bs4.PlainText "Plush"; add_to_cart_button ];
             bs4.NavigableString bs4.PlainText "Plush" ], [ bs4.NavigableString bs4.PlainText "Add to Cart" ].
    split; [reflexivity|]. split; [vm_compute; reflexivity|].
    intros y [<-|[<-|[]]]; vm_compute; reflexivity.
  - reflexivity.
Defined.

(** C1 as stated fails: a document holds a button with both tokens, type
    "button" and text exactly "Add to Cart", and is classified
    not-in-stock, because an earlier button with the same signature reads
    otherwise. *)
Lemma C1_counterexample :
  existsb stated_in_stock_button (bs4.soup_descendants two_signature_buttons) = true
  /\ classify true two_signature_buttons = (false, out_of_stock_primary)
  /\ classify false two_signature_buttons = (false, out_of_stock_primary).
Proof. repeat split; vm_compute; reflexivity. Qed.

(** C4, at the input where the code departs from it: the only "Add to
    Cart" button carries a disabled attribute (written [disabled] or
    [disabled=""]), none of the first two patterns matches, and the
    classifier returns in-stock with reason in-stock-fallback. *)
Theorem C4_empty_disabled_attribute_passes_fallback (absent_matches_empty : bool) :
  has_attr disabled_add_to_cart "disabled" = true
  /\ bs4.truthy (bs4.get disabled_add_to_cart "disabled") = false
  /\ in_stock_button_says_add_to_cart absent_matches_empty [disabled_add_to_cart] = false
  /\ found (out_of_stock_button absent_matches_empty [disabled_add_to_cart]) = false
  /\ found (unavailable_button absent_matches_empty [disabled_add_to_cart]) = false
  /\ classify absent_matches_empty [disabled_add_to_cart] = (true, in_stock_fallback).
Proof. destruct absent_matches_empty; repeat split; vm_compute; reflexivity. Qed.







(** ** Events of a computation *)

Lemma count_app (p : event -> bool) (l1 l2 : list event) :
  count p (l1 ++ l2) = (count p l1 + count p l2)%nat.
Proof. unfold count. now rewrite List.filter_app, length_app. Qed.

Lemma quiet_app (l1 l2 : list event) : quiet (l1 ++ l2) = quiet l1 && quiet l2.
Proof. apply forallb_app. Qed.

Lemma quiet_count (l : list event) :
  quiet l = true -> count is_notification l = 0%nat /\ count is_check l = 0%nat.
Proof.
  unfold quiet, count. induction l as [|ev l IH]; [easy|]. cbn [forallb List.filter].
  intros H. apply andb_true_iff in H as [Hev Hl]. destruct (IH Hl) as [IHn IHc].
  destruct ev; cbn in Hev |- *; auto; discriminate.
Qed.

Lemma events_bind {A B} (m : M A) (k : A -> M B) :
  events (bind m k)
  = events m ++ match returned m with
                | Return a => events (k a)
                | Raise _ => []
                end.
Proof.
  destruct m as [ev [a|e]]; unfold bind, events, returned; cbn [fst snd].
  - now destruct (k a).
  - now rewrite app_nil_r.
Qed.

Lemma returned_bind {A B} (m : M A) (k : A -> M B) :
  returned (bind m k)
  = match returned m with
    | Return a => returned (k a)
    | Raise e => Raise e
    end.
Proof.
  destruct m as [ev [a|e]]; unfold bind, returned; cbn [fst snd]; [|easy].
  now destruct (k a).
Qed.

Lemma quiet_bind {A B} (m : M A) (k : A -> M B) :
  quiet (events m) = true ->
  (forall a, quiet (events (k a)) = true) ->
  quiet (events (bind m k)) = true.
Proof.
  intros Hm Hk. rewrite events_bind, quiet_app, Hm.
  destruct (returned m); [apply Hk | easy].
Qed.

Lemma quiet_try_except {A} (m : M A) (handler : exn -> option (M A)) :
  quiet (events m) = true ->
  (forall e h, handler e = Some h -> quiet (events h) = true) ->
  quiet (events (try_except m handler)) = true.
Proof.
  intros Hm Hh. destruct m as [ev [a|e]]; unfold try_except; [exact Hm|].
  destruct (handler e) as [[ev' r]|] eqn:E; [|exact Hm].
  pose proof (Hh e _ E) as Hq. unfold events in *. cbn [fst] in *.
  now rewrite quiet_app, Hm, Hq.
Qed.

Lemma quiet_getitem (d : gmap string pyval) (key : string) :
  quiet (events (getitem d key)) = true.
Proof. unfold getitem. now destruct (d !! key). Qed.

Lemma quiet_send_email (self : PokemonStockMonitor) (config : gmap string pyval)
    (message : string) (relay : smtp_relay) :
  quiet (events (send_email self config message relay)) = true.
Proof.
  unfold send_email.
  repeat (apply quiet_bind; [first [apply quiet_getitem | reflexivity] | intros ?]).
  reflexivity.
Qed.

(** ** The notifier *)

(** A call of [send_notification] is one [SendNotification] event followed
    by events of the mail session, the log and the console. *)
Lemma send_notification_events (self : PokemonStockMonitor) (message : string)
    (relay : smtp_relay) :
  exists tail,
    events (send_notification self message relay) = SendNotification message :: tail
    /\ quiet tail = true.
Proof.
  unfold send_notification. rewrite events_bind. cbn [emit events returned fst snd app].
  eexists. split; [reflexivity|].
  destruct (email_enabled self) as [config|]; [|reflexivity].
  apply quiet_try_except; [apply quiet_send_email|].
  intros e h. destruct (is_Exception e); [|easy]. now intros [= <-].
Qed.

(** Only the interrupt leaves [send_notification] as an exception. *)
Lemma send_notification_returns (self : PokemonStockMonitor) (message : string)
    (relay : smtp_relay) :
  returned (send_notification self message relay) = Return tt
  \/ returned (send_notification self message relay) = Raise KeyboardInterrupt.
Proof.
  unfold send_notification. rewrite returned_bind. cbn [emit snd returned].
  destruct (email_enabled self) as [config|]; [|now left].
  destruct (send_email self config message relay) as [ev [[]|e]]; [now left|].
  destruct e; cbn; auto.
Qed.

(** ** check_stock *)

Section CheckStock.

Variable absent_matches_empty : bool.
Variable self : PokemonStockMonitor.

(** The error of the fetch is caught: it is logged and the pair
    [(False, None)] is returned. *)
Lemma check_stock_fetch_error (get : result response) (e : exn) :
  fetch_error get = Some e ->
  check_stock absent_matches_empty self get
  = ([request self; Log ERROR (ErrorCheckingStock e)], Return (false, None)).
Proof.
  unfold fetch_error, check_stock, raise_for_status. destruct get as [r|e']; cbn.
  - destruct ((400 <=? status_code r) && (status_code r <? 600)); [|easy].
    now intros [= <-].
  - destruct (is_RequestException e') eqn:E; [|easy].
    now intros [= <-].
Qed.

(** A body that parses is classified, and the status code is returned
    with the verdict. *)
Lemma check_stock_parsed (r : response) (soup : list bs4.PageElement) :
  (400 <=? status_code r) && (status_code r <? 600) = false ->
  html_parser r = Return soup ->
  check_stock absent_matches_empty self (Return r)
  = ([request self; Log DEBUG (ButtonStatus (snd (classify absent_matches_empty soup)))],
     Return (fst (classify absent_matches_empty soup), Some (status_code r))).
Proof.
  intros Hs Hp. unfold check_stock, raise_for_status. cbn. rewrite Hs, Hp. cbn.
  now destruct (classify absent_matches_empty soup).
Qed.

(** An exception of the parser that is no [RequestException] leaves
    [check_stock]. *)
Lemma check_stock_parser_raises (r : response) (e : exn) :
  (400 <=? status_code r) && (status_code r <? 600) = false ->
  html_parser r = Raise e ->
  is_RequestException e = false ->
  check_stock absent_matches_empty self (Return r) = ([request self], Raise e).
Proof.
  intros Hs Hp He. unfold check_stock, raise_for_status. cbn. rewrite Hs, Hp. cbn.
  now rewrite He.
Qed.

(** So does any other exception of the GET. *)
Lemma check_stock_get_raises (e : exn) :
  is_RequestException e = false ->
  check_stock absent_matches_empty self (Raise e) = ([request self], Raise e).
Proof. intros He. unfold check_stock. cbn. now rewrite He. Qed.

(** An exception of the [requests] family raised while the body is read
    is caught like an error of the fetch. *)
Lemma check_stock_parser_request_error (r : response) (e : exn) :
  (400 <=? status_code r) && (status_code r <? 600) = false ->
  html_parser r = Raise e ->
  is_RequestException e = true ->
  check_stock absent_matches_empty self (Return r)
  = ([request self; Log ERROR (ErrorCheckingStock e)], Return (false, None)).
Proof.
  intros Hs Hp He. unfold check_stock, raise_for_status. cbn. rewrite Hs, Hp. cbn.
  now rewrite He.
Qed.

(** Every call of [check_stock] makes one request, and no notification. *)
Lemma check_stock_events (get : result response) :
  exists tail,
    events (check_stock absent_matches_empty self get) = request self :: tail
    /\ quiet tail = true.
Proof.
  destruct (fetch_error get) as [e|] eqn:Ef.
  - rewrite (check_stock_fetch_error _ _ Ef). now eexists.
  - destruct get as [r|e]; cbn in Ef.
    + destruct ((400 <=? status_code r) && (status_code r <? 600)) eqn:Hs; [easy|].
      destruct (html_parser r) as [soup|e] eqn:Hp.
      * rewrite (check_stock_parsed _ _ Hs Hp). now eexists.
      * destruct (is_RequestException e) eqn:He.
        -- rewrite (check_stock_parser_request_error _ _ Hs Hp He). now eexists.
        -- rewrite (check_stock_parser_raises _ _ Hs Hp He). now eexists.
    + destruct (is_RequestException e) eqn:He; [easy|].
      rewrite (check_stock_get_raises _ He). now eexists.
Qed.

End CheckStock.

(** ** One pass of the loop *)

Section Iteration.

Variable absent_matches_empty : bool.
Variable self : PokemonStockMonitor.
Variable check_interval : Z.
Variable t : tick.

Lemma time_sleep_returns :
  0 <= check_interval -> sleep t = Return tt ->
  time_sleep check_interval (sleep t) = ([Sleep check_interval], Return tt).
Proof.
  intros Hc Hs. unfold time_sleep. rewrite (proj2 (Z.ltb_ge _ _) Hc), Hs. reflexivity.
Qed.

(** A failed check: the warning of line 134, no notification, then the
    sleep. *)
Lemma iteration_failed_check (ev : list event) (in_stock : bool) :
  check_stock absent_matches_empty self (http_get t) = (ev, Return (in_stock, None)) ->
  exists tail,
    events (iteration absent_matches_empty self check_interval t)
    = ev ++ Log WARNING FailedToCheckStock :: tail
    /\ quiet tail = true
    /\ (0 <= check_interval -> sleep t = Return tt ->
        iteration absent_matches_empty self check_interval t
        = (ev ++ [Log WARNING FailedToCheckStock; Sleep check_interval], Return Continue)).
Proof.
  intros Hc. unfold iteration. rewrite Hc. unfold time_sleep.
  destruct (check_interval <? 0) eqn:Hneg.
  - cbn. split_run.
    intros H. apply Z.ltb_lt in Hneg. lia.
  - destruct (sleep t) as [[]|e].
    + cbn. split_run. reflexivity.
    + destruct e; cbn; split_run; easy.
Qed.

(** A not-in-stock verdict: the record of line 132, then the sleep. *)
Lemma iteration_not_in_stock (ev : list event) (status : Z) :
  check_stock absent_matches_empty self (http_get t) = (ev, Return (false, Some status)) ->
  status <> 0 ->
  exists tail,
    events (iteration absent_matches_empty self check_interval t)
    = ev ++ Log INFO (StillOutOfStock status) :: tail
    /\ quiet tail = true
    /\ (0 <= check_interval -> sleep t = Return tt ->
        iteration absent_matches_empty self check_interval t
        = (ev ++ [Log INFO (StillOutOfStock status); Sleep check_interval], Return Continue)).
Proof.
  intros Hc Hs. apply Z.eqb_neq in Hs. unfold iteration. rewrite Hc. unfold time_sleep.
  destruct (check_interval <? 0) eqn:Hneg.
  - cbn. rewrite Hs. cbn. split_run.
    intros H. apply Z.ltb_lt in Hneg. lia.
  - destruct (sleep t) as [[]|e].
    + cbn. rewrite Hs. cbn. split_run. reflexivity.
    + destruct e; cbn; rewrite Hs; cbn;
        split_run; easy.
Qed.

(** An in-stock verdict: the record of line 128, one call of the notifier,
    and the loop is left. *)
Lemma iteration_in_stock (ev : list event) (status : Z) :
  check_stock absent_matches_empty self (http_get t) = (ev, Return (true, Some status)) ->
  status <> 0 ->
  exists tail,
    iteration absent_matches_empty self check_interval t
    = (ev ++ Log INFO BackInStock :: SendNotification back_in_stock :: tail, Return Break)
    /\ quiet tail = true.
Proof.
  intros Hc Hs. apply Z.eqb_neq in Hs. unfold iteration. rewrite Hc.
  destruct (send_notification_events self back_in_stock (smtp t)) as (tail & Hev & Hq).
  destruct (send_notification_returns self back_in_stock (smtp t)) as [Hr|Hr].
  all: destruct (send_notification self back_in_stock (smtp t)) as [evn rn].
  all: unfold events, returned in Hev, Hr; cbn [fst snd] in Hev, Hr; subst evn rn.
  all: cbn; rewrite Hs; cbn.
  - exists tail. rewrite app_nil_r. now split.
  - exists (tail ++ [Log INFO StoppedByUser]). split.
    + now rewrite <- !app_assoc.
    + now rewrite quiet_app, Hq.
Qed.

(** An exception that leaves [check_stock]: the record of line 142, no
    notification, then the sleep of line 143. *)
Lemma iteration_unexpected_error (ev : list event) (e : exn) :
  check_stock absent_matches_empty self (http_get t) = (ev, Raise e) ->
  is_Exception e = true ->
  exists tail,
    events (iteration absent_matches_empty self check_interval t)
    = ev ++ Log ERROR (UnexpectedError e) :: tail
    /\ quiet tail = true
    /\ (0 <= check_interval -> sleep t = Return tt ->
        iteration absent_matches_empty self check_interval t
        = (ev ++ [Log ERROR (UnexpectedError e); Sleep check_interval], Return Continue)).
Proof.
  intros Hc He. unfold iteration. rewrite Hc. unfold time_sleep.
  destruct (check_interval <? 0) eqn:Hneg.
  - destruct e; try discriminate He; cbn;
      split_run;
      intros H; apply Z.ltb_lt in Hneg; lia.
  - destruct (sleep t) as [[]|e'].
    + destruct e; try discriminate He; cbn;
        split_run; reflexivity.
    + destruct e; try discriminate He; cbn;
        split_run; easy.
Qed.

End Iteration.

(** ** The loop *)

Section Polling.

Variable absent_matches_empty : bool.
Variable self : PokemonStockMonitor.
Variable check_interval : Z.

Lemma polling_continue (t : tick) (rest : list tick) (ev : list event) :
  iteration absent_matches_empty self check_interval t = (ev, Return Continue) ->
  polling absent_matches_empty self check_interval (t :: rest)
  = (ev ++ events (polling absent_matches_empty self check_interval rest),
     returned (polling absent_matches_empty self check_interval rest)).
Proof.
  intros H. cbn [polling]. rewrite H. cbn.
  now destruct (polling absent_matches_empty self check_interval rest).
Qed.

Lemma polling_break (t : tick) (rest : list tick) (ev : list event) :
  iteration absent_matches_empty self check_interval t = (ev, Return Break) ->
  polling absent_matches_empty self check_interval (t :: rest) = (ev, Return DONE).
Proof. intros H. cbn [polling]. rewrite H. cbn. now rewrite app_nil_r. Qed.

End Polling.

(** ** The loop driver *)

Lemma count_cons (p : event -> bool) (ev : event) (l : list event) :
  count p (ev :: l) = ((if p ev then 1 else 0) + count p l)%nat.
Proof. unfold count. cbn [List.filter]. now destruct (p ev). Qed.

Lemma count_nil (p : event -> bool) : count p [] = 0%nat.
Proof. reflexivity. Qed.

(** C2: in a run whose first tick classifies not-in-stock and whose second
    tick classifies in-stock (the sleep between the two returns, so that
    there is a second tick), [send_notification] is called exactly once,
    the call comes after the second check and no check follows it, and
    [monitor] returns: the run is the same whatever ticks were still on
    offer. *)
Theorem C2_one_notification_after_second_tick
    (absent_matches_empty : bool) (self : PokemonStockMonitor) (check_interval : Z)
    (first second : tick) (rest : list tick)
    (ev1 ev2 : list event) (status1 status2 : Z) :
  check_stock absent_matches_empty self (http_get first) = (ev1, Return (false, Some status1)) ->
  status1 <> 0 ->
  0 <= check_interval ->
  sleep first = Return tt ->
  check_stock absent_matches_empty self (http_get second) = (ev2, Return (true, Some status2)) ->
  status2 <> 0 ->
  returned (monitor absent_matches_empty self check_interval (first :: second :: rest))
  = Return DONE
  /\ count is_notification
       (events (monitor absent_matches_empty self check_interval (first :: second :: rest)))
     = 1%nat
  /\ (exists before after,
        events (monitor absent_matches_empty self check_interval (first :: second :: rest))
        = before ++ SendNotification back_in_stock :: after
        /\ count is_check before = 2%nat
        /\ count is_check after = 0%nat)
  /\ monitor absent_matches_empty self check_interval (first :: second :: rest)
     = monitor absent_matches_empty self check_interval [first; second].
Proof.
  intros Hc1 Hs1 Hci Hsl Hc2 Hs2.
  destruct (iteration_not_in_stock _ _ check_interval _ _ _ Hc1 Hs1) as (_ & _ & _ & Hit1).
  specialize (Hit1 Hci Hsl).
  destruct (iteration_in_stock _ _ check_interval _ _ _ Hc2 Hs2) as (tail & Hit2 & Hq).
  destruct (check_stock_events absent_matches_empty self (http_get first)) as (tail1 & He1 & Hq1).
  destruct (check_stock_events absent_matches_empty self (http_get second)) as (tail2 & He2 & Hq2).
  rewrite Hc1 in He1. rewrite Hc2 in He2. unfold events in He1, He2. cbn [fst] in He1, He2.
  destruct (quiet_count _ Hq) as [Hn Hk], (quiet_count _ Hq1) as [Hn1 Hk1],
    (quiet_count _ Hq2) as [Hn2 Hk2].
  assert (Hrun : forall more,
    monitor absent_matches_empty self check_interval (first :: second :: more)
    = ([Log INFO (StartingToMonitor (url self)); Log INFO (CheckInterval check_interval)]
       ++ (ev1 ++ [Log INFO (StillOutOfStock status1); Sleep check_interval])
       ++ (ev2 ++ [Log INFO BackInStock]) ++ SendNotification back_in_stock :: tail,
       Return DONE)).
  { intros more. unfold monitor.
    rewrite (polling_continue _ _ _ _ _ _ Hit1), (polling_break _ _ _ _ _ _ Hit2).
    cbn. now rewrite <- !app_assoc. }
  rewrite (Hrun rest), (Hrun []). unfold events, returned. cbn [fst snd].
  split; [reflexivity|]. split; [|split; [|reflexivity]].
  - subst ev1 ev2.
    rewrite ?count_app, ?count_cons, ?count_nil, Hn, Hn1, Hn2. reflexivity.
  - exists ([Log INFO (StartingToMonitor (url self)); Log INFO (CheckInterval check_interval)]
            ++ (ev1 ++ [Log INFO (StillOutOfStock status1); Sleep check_interval])
            ++ (ev2 ++ [Log INFO BackInStock])), tail.
    split; [now rewrite <- !app_assoc|]. split; [|exact Hk].
    subst ev1 ev2.
    rewrite ?count_app, ?count_cons, ?count_nil, Hk1, Hk2. reflexivity.
Qed.

Lemma C2_witness :
  returned (monitor true with_email 90 [tick_out_of_stock; tick_in_stock; tick_timeout])
  = Return DONE
  /\ count is_notification
       (events (monitor true with_email 90 [tick_out_of_stock; tick_in_stock; tick_timeout]))
     = 1%nat.
Proof.
  destruct (C2_one_notification_after_second_tick true with_email 90
              tick_out_of_stock tick_in_stock [tick_timeout]
              (events (check_stock true with_email (http_get tick_out_of_stock)))
              (events (check_stock true with_email (http_get tick_in_stock)))
              200 200) as (Hdone & Hone & _);
    [vm_compute; reflexivity | lia | lia | reflexivity | vm_compute; reflexivity | lia |].
  exact (conj Hdone Hone).
Defined.

(** C3, as amended: on a tick whose fetch fails with a timeout, a
    connection failure or another error of the [requests] family, or with
    a 4xx or 5xx status, the error is caught inside [check_stock], which
    returns [(False, None)]; the loop driver logs the failed check, calls
    no notifier on that tick, and goes on to its sleep and, the sleep
    returning, to the next tick. *)
Theorem C3_fetch_error_is_a_failed_check
    (absent_matches_empty : bool) (self : PokemonStockMonitor) (check_interval : Z)
    (t : tick) (rest : list tick) (e : exn) :
  fetch_error (http_get t) = Some e ->
  check_stock absent_matches_empty self (http_get t)
  = ([request self; Log ERROR (ErrorCheckingStock e)], Return (false, None))
  /\ (exists tail,
        events (iteration absent_matches_empty self check_interval t)
        = [request self; Log ERROR (ErrorCheckingStock e); Log WARNING FailedToCheckStock]
          ++ tail
        /\ quiet tail = true)
  /\ count is_notification (events (iteration absent_matches_empty self check_interval t))
     = 0%nat
  /\ (0 <= check_interval -> sleep t = Return tt ->
      iteration absent_matches_empty self check_interval t
      = ([request self; Log ERROR (ErrorCheckingStock e); Log WARNING FailedToCheckStock;
          Sleep check_interval], Return Continue)
      /\ polling absent_matches_empty self check_interval (t :: rest)
         = (events (iteration absent_matches_empty self check_interval t)
              ++ events (polling absent_matches_empty self check_interval rest),
            returned (polling absent_matches_empty self check_interval rest))).
Proof.
  intros Hf. pose proof (check_stock_fetch_error absent_matches_empty self _ _ Hf) as Hc.
  destruct (iteration_failed_check _ _ check_interval _ _ _ Hc) as (tail & Hev & Hq & Hgo).
  split; [exact Hc|]. split; [|split].
  - exists tail. now split.
  - rewrite Hev. destruct (quiet_count _ Hq) as [Hn _].
    rewrite ?count_app, ?count_cons, ?count_nil, Hn. reflexivity.
  - intros Hci Hsl. specialize (Hgo Hci Hsl). split; [exact Hgo|].
    rewrite (polling_continue _ _ _ _ _ _ Hgo). now rewrite Hgo.
Qed.

Lemma C3_witness :
  iteration true pokemon_center 90 tick_timeout
  = ([request pokemon_center; Log ERROR (ErrorCheckingStock ReadTimeout);
      Log WARNING FailedToCheckStock; Sleep 90], Return Continue).
Proof.
  destruct (C3_fetch_error_is_a_failed_check true pokemon_center 90 tick_timeout []
              ReadTimeout) as (_ & _ & _ & Hgo); [reflexivity|].
  exact (proj1 (Hgo ltac:(lia) eq_refl)).
Defined.

(** C3 as stated fails: a tick answered with status 300, a status outside
    200..299, is no failed check.  Nothing is raised, the body is
    classified, and since it shows the in-stock button the notifier is
    called and the loop is left. *)
Lemma C3_counterexample :
  stated_fetch_failure (http_get tick_multiple_choices) = true
  /\ iteration true pokemon_center 90 tick_multiple_choices
     = ([request pokemon_center; Log DEBUG (ButtonStatus in_stock_primary);
         Log INFO BackInStock; SendNotification back_in_stock;
         Console (StockAlert back_in_stock)], Return Break)
  /\ iteration false pokemon_center 90 tick_multiple_choices
     = ([request pokemon_center; Log DEBUG (ButtonStatus in_stock_primary);
         Log INFO BackInStock; SendNotification back_in_stock;
         Console (StockAlert back_in_stock)], Return Break).
Proof. repeat split; vm_compute; reflexivity. Qed.

(** C7: whatever the message and the configuration, when the e-mail path
    fails with an exception (a missing key, a refused connection or a bad
    port, a rejected login, ...), [send_notification] logs the failure,
    prints the alert to the console and returns to its caller; a loop that
    called it on an in-stock verdict then ends as after a sent e-mail. *)
Theorem C7_email_failure_falls_back_to_console
    (self : PokemonStockMonitor) (config : gmap string pyval) (message : string)
    (relay : smtp_relay) (e : exn) :
  email_enabled self = Some config ->
  returned (send_email self config message relay) = Raise e ->
  is_Exception e = true ->
  send_notification self message relay
  = (SendNotification message :: events (send_email self config message relay)
       ++ [Log ERROR (FailedToSendEmail e); Console (StockAlert message)],
     Return tt)
  /\ (forall (absent_matches_empty : bool) (check_interval : Z) (t : tick)
        (ev : list event) (status : Z),
        smtp t = relay -> message = back_in_stock ->
        check_stock absent_matches_empty self (http_get t) = (ev, Return (true, Some status)) ->
        status <> 0 ->
        iteration absent_matches_empty self check_interval t
        = (ev ++ Log INFO BackInStock :: SendNotification message
              :: events (send_email self config message relay)
              ++ [Log ERROR (FailedToSendEmail e); Console (StockAlert message)],
           Return Break)).
Proof.
  intros Hen Hr He.
  assert (Hsend : send_notification self message relay
    = (SendNotification message :: events (send_email self config message relay)
         ++ [Log ERROR (FailedToSendEmail e); Console (StockAlert message)],
       Return tt)).
  { unfold send_notification. rewrite Hen.
    destruct (send_email self config message relay) as [evs rs].
    unfold returned in Hr. cbn [snd] in Hr. subst rs. cbn. now rewrite He. }
  split; [exact Hsend|].
  intros q ci t ev status <- -> Hc Hs. apply Z.eqb_neq in Hs.
  unfold iteration. rewrite Hc, Hsend. cbn. rewrite Hs. cbn.
  now rewrite app_nil_r.
Qed.

Lemma C7_witness :
  send_notification bad_port back_in_stock relay_unreachable
  = ([SendNotification back_in_stock;
      Smtp (Connect (PStr "smtp.gmail.com") (PInt 99999));
      Log ERROR (FailedToSendEmail OSError);
      Console (StockAlert back_in_stock)], Return tt).
Proof.
  destruct (C7_email_failure_falls_back_to_console bad_port
              (<["smtp_port" := PInt 99999]> gmail) back_in_stock relay_unreachable OSError)
    as [Hsend _]; [vm_compute; reflexivity | vm_compute; reflexivity | reflexivity |].
  rewrite Hsend. vm_compute. reflexivity.
Defined.



(** ** Start-up *)

Lemma load_config_unset (env : gmap string string) :
  unset env "PRODUCT_URL" = true -> load_config env = (guidance, Return NoConfig).
Proof. intros H. unfold load_config. cbn [List.filter]. now rewrite H. Qed.

(** C9: when PRODUCT_URL is absent from the environment, [load_config]
    prints the guidance and returns a pair whose URL is [None], and [main]
    returns at once: its whole output is the banner and the guidance,
    whatever the ticks on offer; no monitor is built, no check is made. *)
Theorem C9_missing_url_exits_before_the_loop
    (absent_matches_empty : bool) (env : gmap string string) (ticks : list tick) :
  env !! "PRODUCT_URL" = None ->
  load_config env = (guidance, Return NoConfig)
  /\ config_url NoConfig = None
  /\ main absent_matches_empty env ticks
     = (Console Banner :: Console RuleEquals :: guidance, Return None)
  /\ count is_check (events (main absent_matches_empty env ticks)) = 0%nat.
Proof.
  intros Habsent.
  assert (Hload : load_config env = (guidance, Return NoConfig))
    by (apply load_config_unset; unfold unset; now rewrite Habsent).
  assert (Hmain : main absent_matches_empty env ticks
                  = (Console Banner :: Console RuleEquals :: guidance, Return None))
    by (unfold main; now rewrite Hload).
  repeat split; [exact Hload | exact Hmain |]. now rewrite Hmain.
Qed.

Lemma C9_witness :
  main true ∅ [tick_in_stock]
  = (Console Banner :: Console RuleEquals :: guidance, Return None).
Proof.
  destruct (C9_missing_url_exits_before_the_loop true ∅ [tick_in_stock])
    as (_ & _ & Hmain & _); [reflexivity|].
  exact Hmain.
Defined.

(** A port that [int] rejects switches e-mail off at start-up (lines
    194-195): the monitor is built without a configuration and alerts go
    to the console. *)
Example load_config_bad_port :
  load_config env_bad_port
  = ([Console InvalidSmtpPort],
     Return (Config "https://www.pokemoncenter.com/product/701-29495" None 90))
  /\ send_notification
       {| url := "https://www.pokemoncenter.com/product/701-29495"; email_config := None |}
       back_in_stock relay_unreachable
     = ([SendNotification back_in_stock; Console (StockAlert back_in_stock)], Return tt).
Proof. split; vm_compute; reflexivity. Qed.

(** ** The encoding of a failed check *)

(** The three ways a call of [check_stock] ends. *)
Lemma check_stock_cases
    (absent_matches_empty : bool) (self : PokemonStockMonitor) (get : result response) :
  (exists e,
     caught_error get = Some e
     /\ check_stock absent_matches_empty self get
        = ([request self; Log ERROR (ErrorCheckingStock e)], Return (false, None)))
  \/ (exists r soup,
        get = Return r /\ html_parser r = Return soup
        /\ (400 <=? status_code r) && (status_code r <? 600) = false
        /\ caught_error get = None
        /\ check_stock absent_matches_empty self get
           = ([request self; Log DEBUG (ButtonStatus (snd (classify absent_matches_empty soup)))],
              Return (fst (classify absent_matches_empty soup), Some (status_code r))))
  \/ (exists e,
        caught_error get = None /\ is_RequestException e = false
        /\ check_stock absent_matches_empty self get = ([request self], Raise e)).
Proof.
  unfold caught_error. destruct (fetch_error get) as [e|] eqn:Ef.
  - left. exists e. split; [reflexivity|]. now apply check_stock_fetch_error.
  - destruct get as [r|e]; cbn in Ef.
    + destruct ((400 <=? status_code r) && (status_code r <? 600)) eqn:Hs; [easy|].
      destruct (html_parser r) as [soup|e] eqn:Hp.
      * right. left. exists r, soup. repeat split; try easy.
        now apply check_stock_parsed.
      * destruct (is_RequestException e) eqn:He.
        -- left. exists e. split; [reflexivity|].
           now apply check_stock_parser_request_error.
        -- right. right. exists e. repeat split; try easy.
           now apply check_stock_parser_raises.
    + destruct (is_RequestException e) eqn:He; [easy|].
      right. right. exists e. repeat split; try easy.
      now apply check_stock_get_raises.
Qed.

(** C10, as amended: whenever [check_stock] returns, it returns a pair
    whose status is [None] exactly when an error was caught in it (and
    then in_stock is [False]), and is the status code of the response
    otherwise; the loop driver tells a failed check from a not-in-stock
    verdict by the truth value of that status, which for a status code
    other than 0 is the test for [None].  ([check_stock] does not return on
    every input: see the counterexample.) *)
Theorem C10_none_status_marks_a_failed_check
    (absent_matches_empty : bool) (self : PokemonStockMonitor) (check_interval : Z)
    (t : tick) (in_stock : bool) (status : option Z) :
  returned (check_stock absent_matches_empty self (http_get t)) = Return (in_stock, status) ->
  status <> Some 0 ->
  (status = None <-> exists e, caught_error (http_get t) = Some e)
  /\ (status = None -> in_stock = false)
  /\ (forall s, status = Some s ->
        exists r, http_get t = Return r /\ status_code r = s
                  /\ (400 <=? s) && (s <? 600) = false)
  /\ (status = None ->
        exists tail,
          events (iteration absent_matches_empty self check_interval t)
          = events (check_stock absent_matches_empty self (http_get t))
              ++ Log WARNING FailedToCheckStock :: tail
          /\ quiet tail = true)
  /\ (forall s, status = Some s -> in_stock = false ->
        exists tail,
          events (iteration absent_matches_empty self check_interval t)
          = events (check_stock absent_matches_empty self (http_get t))
              ++ Log INFO (StillOutOfStock s) :: tail
          /\ quiet tail = true).
Proof.
  intros Hret Hnz.
  destruct (check_stock_cases absent_matches_empty self (http_get t))
    as [(e & Hce & Hc) | [(r & soup & Hg & Hp & Hs & Hce & Hc) | (e & Hce & He & Hc)]];
    rewrite Hc in Hret; unfold returned in Hret; cbn [snd] in Hret;
    [ | | discriminate Hret]; injection Hret as <- <-.
  - split; [split; eauto|]. split; [easy|]. split; [easy|]. split; [|easy].
    intros _. destruct (iteration_failed_check _ _ check_interval _ _ _ Hc) as (tail & Hev & Hq & _).
    exists tail. rewrite Hc. now split.
  - split; [split; [easy|]|].
    { intros [e He]. congruence. }
    split; [easy|]. split.
    { intros s [= <-]. exists r. now repeat split. }
    split; [easy|]. intros s [= <-] Hin.
    assert (Hnz' : status_code r <> 0) by congruence.
    rewrite Hin in Hc.
    destruct (iteration_not_in_stock _ _ check_interval _ _ _ Hc Hnz') as (tail & Hev & Hq & _).
    exists tail. rewrite Hc. now split.
Qed.

Lemma C10_witness :
  exists tail,
    events (iteration true pokemon_center 90 tick_timeout)
    = events (check_stock true pokemon_center (http_get tick_timeout))
        ++ Log WARNING FailedToCheckStock :: tail
    /\ quiet tail = true.
Proof.
  destruct (C10_none_status_marks_a_failed_check true pokemon_center 90 tick_timeout
              false None) as (_ & _ & _ & Hfailed & _); [reflexivity | discriminate |].
  exact (Hfailed eq_refl).
Defined.

(** C10 as stated fails: [check_stock] does not return a pair on every
    input.  On a body that the parser rejects no error is caught and no
    pair is returned; the exception leaves [check_stock]. *)
Lemma C10_counterexample :
  caught_error (http_get tick_unparsable) = None
  /\ check_stock true pokemon_center (http_get tick_unparsable)
     = ([request pokemon_center], Raise ParserRejectedMarkup)
  /\ check_stock false pokemon_center (http_get tick_unparsable)
     = ([request pokemon_center], Raise ParserRejectedMarkup).
Proof. repeat split. Qed.

(** * Further properties *)

(** ** The classifier *)

Lemma find_none_all {A} (P : A -> bool) (l : list A) :
  (forall x, In x l -> P x = false) -> List.find P l = None.
Proof.
  intros H. destruct (List.find P l) as [x|] eqn:E; [|easy].
  apply find_some in E as [Hin Hx]. rewrite (H x Hin) in Hx. easy.
Qed.

Lemma find_ext_in {A} (P Q : A -> bool) (l : list A) :
  (forall x, In x l -> P x = Q x) -> List.find P l = List.find Q l.
Proof.
  induction l as [|y l IH]; intros H; [easy|]. cbn [List.find].
  rewrite (H y) by now left. rewrite IH; [easy|]. intros x Hx. apply H. now right.
Qed.

Section ClassifierMore.

Variable absent_matches_empty : bool.

(** Every search of [check_stock] is for a button. *)
Lemma search_tag_button (attrs : list (string * bs4.matcher)) (text : option string)
    (el : bs4.PageElement) :
  bs4.search_tag absent_matches_empty "button" attrs text el = true -> is_button el = true.
Proof.
  destruct el as [c s|n a contents]; [easy|]. unfold bs4.search_tag, is_button.
  cbn [bs4.tag_name]. intros H. now apply andb_true_iff in H as [H%andb_true_iff _].
Qed.

Lemma fallback_cart_button_says (soup : list bs4.PageElement) (button : bs4.PageElement) :
  fallback_cart_button absent_matches_empty soup = Some button ->
  In button (bs4.soup_descendants soup) /\ says "Add to Cart" button = true.
Proof.
  unfold fallback_cart_button, bs4.find.
  rewrite (find_ext_fun _ (says "Add to Cart")) by (intros; now apply fallback_search).
  apply find_some.
Qed.

Lemma in_stock_button_signature (soup : list bs4.PageElement) (button : bs4.PageElement) :
  in_stock_button absent_matches_empty soup = Some button ->
  In button (bs4.soup_descendants soup) /\ in_stock_signature button = true.
Proof.
  unfold in_stock_button, bs4.find.
  rewrite (find_ext_fun _ in_stock_signature) by apply in_stock_search.
  apply find_some.
Qed.

End ClassifierMore.

(** The button behind an in-stock verdict. *)
Lemma in_stock_support
    (absent_matches_empty : bool) (soup : list bs4.PageElement) (reason : string) :
  classify absent_matches_empty soup = (true, reason) ->
  existsb (supports_in_stock reason) (bs4.soup_descendants soup) = true.
Proof.
  unfold classify, in_stock_button_says_add_to_cart.
  destruct (in_stock_button absent_matches_empty soup) as [b|] eqn:Eb.
  - destruct (String.eqb (py.strip (bs4.get_text b)) "Add to Cart") eqn:Et.
    + intros [= <-]. apply in_stock_button_signature in Eb as [Hin Hsig].
      apply existsb_exists. exists b. split; [exact Hin|].
      unfold supports_in_stock. now rewrite Hsig, Et.
    + destruct (found _ || found _); [easy|].
      destruct (fallback_cart_button absent_matches_empty soup) as [f|] eqn:Ef; [|easy].
      destruct (negb (bs4.truthy (bs4.get f "disabled"))) eqn:Ed; [|easy].
      intros [= <-]. apply fallback_cart_button_says in Ef as [Hin Hs].
      apply existsb_exists. exists f. split; [exact Hin|].
      unfold supports_in_stock. rewrite Hs, Ed. apply orb_true_r.
  - destruct (found _ || found _); [easy|].
    destruct (fallback_cart_button absent_matches_empty soup) as [f|] eqn:Ef; [|easy].
    destruct (negb (bs4.truthy (bs4.get f "disabled"))) eqn:Ed; [|easy].
    intros [= <-]. apply fallback_cart_button_says in Ef as [Hin Hs].
    apply existsb_exists. exists f. split; [exact Hin|].
    unfold supports_in_stock. rewrite Hs, Ed. apply orb_true_r.
Qed.

(** X1: an in-stock verdict always rests on a button of the document:
    under the reason in-stock-primary, on a button with the in-stock
    signature whose stripped text is "Add to Cart"; under the reason
    in-stock-fallback, on a button whose string is "Add to Cart" and whose
    disabled attribute is absent or empty. *)
Theorem classify_in_stock_rests_on_a_button
    (absent_matches_empty : bool) (soup : list bs4.PageElement) (reason : string) :
  classify absent_matches_empty soup = (true, reason) ->
  existsb (supports_in_stock reason) (bs4.soup_descendants soup) = true.
Proof. apply in_stock_support. Qed.

Lemma classify_in_stock_rests_on_a_button_witness :
  existsb (supports_in_stock in_stock_fallback)
    (bs4.soup_descendants [disabled_add_to_cart]) = true.
Proof.
  apply (classify_in_stock_rests_on_a_button true [disabled_add_to_cart] in_stock_fallback).
  vm_compute. reflexivity.
Defined.

(** X2: a document without a button (an empty page, an error page) is
    classified not-in-stock with reason unknown. *)
Theorem classify_without_button
    (absent_matches_empty : bool) (soup : list bs4.PageElement) :
  forallb (fun el => negb (is_button el)) (bs4.soup_descendants soup) = true ->
  classify absent_matches_empty soup = (false, unknown).
Proof.
  intros H.
  assert (Hnone : forall attrs text,
    bs4.find absent_matches_empty soup "button" attrs text = None).
  { intros attrs text. apply find_none_all. intros el Hin.
    destruct (bs4.search_tag absent_matches_empty "button" attrs text el) eqn:E; [|easy].
    apply search_tag_button in E.
    rewrite forallb_forall in H. specialize (H el Hin). now rewrite E in H. }
  unfold classify, in_stock_button_says_add_to_cart, in_stock_button,
    out_of_stock_button, unavailable_button, fallback_cart_button.
  now rewrite !Hnone.
Qed.

Lemma classify_without_button_witness :
  classify true [bs4.Tag "p" ∅ [bs4.NavigableString bs4.PlainText "Access denied"]]
  = (false, unknown).
Proof.
  apply (classify_without_button true). vm_compute. reflexivity.
Defined.

(** X3: the verdict does not depend on the version of the library, as long
    as no button of the document lacks a disabled attribute while having
    both out-of-stock class names or the string "Unavailable". *)
Theorem classify_same_for_both_versions (soup : list bs4.PageElement) :
  forallb (fun el => negb (version_sensitive el)) (bs4.soup_descendants soup) = true ->
  classify true soup = classify false soup.
Proof.
  intros H. rewrite forallb_forall in H.
  assert (Hin : in_stock_button true soup = in_stock_button false soup).
  { unfold in_stock_button, bs4.find.
    transitivity (List.find in_stock_signature (bs4.soup_descendants soup));
      [|symmetry]; apply find_ext_fun; intros; apply in_stock_search. }
  assert (Hfb : fallback_cart_button true soup = fallback_cart_button false soup).
  { unfold fallback_cart_button, bs4.find.
    transitivity (List.find (says "Add to Cart") (bs4.soup_descendants soup));
      [|symmetry]; apply find_ext_fun; intros; now apply fallback_search. }
  assert (Hoos : out_of_stock_button true soup = out_of_stock_button false soup).
  { unfold out_of_stock_button, bs4.find. apply find_ext_in. intros el Hel.
    specialize (H el Hel). destruct el as [c s|n a contents]; [easy|].
    unfold bs4.search_tag. cbn [forallb fst snd]. rewrite !matches_both_in by easy.
    unfold version_sensitive, is_button, has_attr in H. cbn [bs4.tag_name] in H.
    destruct (bs4.get (bs4.Tag n a contents) "disabled") as [[v|l]|]; [easy|easy|].
    cbn [bs4.matches bs4.matches_string py.truthy]. cbn [negb andb] in H |- *.
    destruct (String.eqb n "button"); [|easy]. cbn [andb] in H |- *.
    destruct (value_contains _ add_to_cart_class && value_contains _ disabled_class);
      [easy|]. now rewrite !andb_false_r. }
  assert (Hun : unavailable_button true soup = unavailable_button false soup).
  { unfold unavailable_button, bs4.find. apply find_ext_in. intros el Hel.
    specialize (H el Hel). destruct el as [c s|n a contents]; [easy|].
    unfold bs4.search_tag. cbn [forallb fst snd].
    unfold version_sensitive, says, is_button, has_attr in H. cbn [bs4.tag_name] in H.
    destruct (bs4.get (bs4.Tag n a contents) "disabled") as [[v|l]|]; [easy|easy|].
    cbn [bs4.matches bs4.matches_string py.truthy]. cbn [negb andb] in H |- *.
    destruct (String.eqb n "button"); [|easy]. cbn [andb] in H |- *.
    apply negb_true_iff, orb_false_iff in H as [_ Hs].
    destruct (bs4.string_of (bs4.Tag n a contents)) as [x|]; [|easy].
    now rewrite Hs. }
  unfold classify, in_stock_button_says_add_to_cart. now rewrite Hin, Hfb, Hoos, Hun.
Qed.

Lemma classify_same_for_both_versions_witness :
  classify true unavailable_page = classify false unavailable_page.
Proof.
  apply classify_same_for_both_versions. vm_compute. reflexivity.
Defined.

(** ** check_stock, once more *)

(** X4: whatever the answer of the server and of the parser, a call of
    [check_stock] makes exactly one request and otherwise only writes to
    the log: it never sleeps, prints, opens a mail session or notifies. *)
Theorem check_stock_requests_once_and_logs
    (absent_matches_empty : bool) (self : PokemonStockMonitor) (get : result response) :
  exists tail,
    events (check_stock absent_matches_empty self get) = request self :: tail
    /\ forallb is_log tail = true.
Proof.
  destruct (check_stock_cases absent_matches_empty self get)
    as [(e & _ & ->) | [(r & soup & _ & _ & _ & _ & ->) | (e & _ & _ & ->)]];
    now eexists.
Qed.

(** X5: [check_stock] reports in stock only for a response that was
    received with a status outside 400..599, parsed, and found to hold a
    button that supports the verdict; never on a failed fetch. *)
Theorem check_stock_in_stock_only_from_a_page
    (absent_matches_empty : bool) (self : PokemonStockMonitor) (get : result response)
    (status : option Z) :
  returned (check_stock absent_matches_empty self get) = Return (true, status) ->
  exists r soup,
    get = Return r /\ html_parser r = Return soup
    /\ status = Some (status_code r)
    /\ (400 <=? status_code r) && (status_code r <? 600) = false
    /\ existsb (supports_in_stock (snd (classify absent_matches_empty soup)))
         (bs4.soup_descendants soup) = true.
Proof.
  destruct (check_stock_cases absent_matches_empty self get)
    as [(e & _ & ->) | [(r & soup & Hg & Hp & Hs & _ & ->) | (e & _ & _ & ->)]];
    unfold returned; cbn [snd]; try discriminate.
  intros [= Hin <-]. exists r, soup. repeat split; try easy.
  apply (in_stock_support absent_matches_empty).
  destruct (classify absent_matches_empty soup) as [b reason]. cbn in *. now subst b.
Qed.

Lemma check_stock_in_stock_only_from_a_page_witness :
  exists r soup,
    http_get tick_in_stock = Return r /\ html_parser r = Return soup
    /\ Some 200 = Some (status_code r)
    /\ (400 <=? status_code r) && (status_code r <? 600) = false
    /\ existsb (supports_in_stock (snd (classify true soup)))
         (bs4.soup_descendants soup) = true.
Proof.
  apply (check_stock_in_stock_only_from_a_page true pokemon_center
           (http_get tick_in_stock) (Some 200)).
  vm_compute. reflexivity.
Defined.

(** ** The notifier, once more *)

(** What a session that ends well looks like, and why one ends badly. *)
Lemma send_email_cases (self : PokemonStockMonitor) (config : gmap string pyval)
    (message : string) (relay : smtp_relay) :
  (exists from_email to_email smtp_server smtp_port password,
     config !! "from_email" = Some from_email /\ config !! "to_email" = Some to_email
     /\ config !! "smtp_server" = Some smtp_server /\ config !! "smtp_port" = Some smtp_port
     /\ config !! "password" = Some password
     /\ relay_accepts relay
     /\ send_email self config message relay
        = ([Smtp (Connect smtp_server smtp_port); Smtp StartTls;
            Smtp (Login from_email password);
            Smtp (SendMessage (alert_email self from_email to_email message));
            Smtp Quit; Log INFO EmailSent], Return tt))
  \/ (exists e,
        returned (send_email self config message relay) = Raise e
        /\ ((exists key, e = KeyError key /\ config !! key = None) \/ relay_raises relay e)).
Proof.
  unfold send_email, getitem, relay_accepts, relay_raises.
  destruct (config !! "from_email") as [f|] eqn:Ef; [|right; cbn; eauto 10].
  destruct (config !! "to_email") as [t|] eqn:Et; [|right; cbn; eauto 10].
  destruct (config !! "smtp_server") as [s|] eqn:Es; [|right; cbn; eauto 10].
  destruct (config !! "smtp_port") as [p|] eqn:Ep; [|right; cbn; eauto 10].
  destruct (connect relay) as [[]|e] eqn:Ec; [|right; cbn; eauto 10].
  destruct (starttls relay) as [[]|e] eqn:Est; [|right; cbn; eauto 10].
  destruct (config !! "password") as [w|] eqn:Ew; [|right; cbn; eauto 10].
  destruct (login relay) as [[]|e] eqn:El; [|right; cbn; eauto 10].
  destruct (send_message relay) as [[]|e] eqn:Em; [|right; cbn; eauto 10].
  destruct (quit relay) as [[]|e] eqn:Eq; [|right; cbn; eauto 10].
  left. exists f, t, s, p, w. cbn. repeat split.
Qed.

Lemma email_body_carries (message url : string) :
  py.contains (email_body message url) message = true
  /\ py.contains (email_body message url) url = true.
Proof.
  unfold email_body. split.
  - do 7 apply contains_app_r. apply contains_app_l, contains_refl.
  - do 13 apply contains_app_r. apply contains_app_l, contains_refl.
Qed.

(** X6: when [send_notification] returns, the alert has been delivered one
    way or the other: printed on the console, or handed to a relay that
    accepted every step of the session, in a message with the fixed
    subject whose body carries the alert text and the product URL. *)
Theorem send_notification_delivers
    (self : PokemonStockMonitor) (message : string) (relay : smtp_relay) :
  returned (send_notification self message relay) = Return tt ->
  In (Console (StockAlert message)) (events (send_notification self message relay))
  \/ (relay_accepts relay
      /\ In (Log INFO EmailSent) (events (send_notification self message relay))
      /\ exists msg,
           In (Smtp (SendMessage msg)) (events (send_notification self message relay))
           /\ msg_subject msg = "Pokémon Center Stock Alert!"
           /\ py.contains (msg_body msg) message = true
           /\ py.contains (msg_body msg) (url self) = true).
Proof.
  unfold send_notification.
  destruct (email_enabled self) as [config|]; [|intros _; left; cbn; auto].
  destruct (send_email_cases self config message relay)
    as [(f & t & s & p & w & _ & _ & _ & _ & _ & Hacc & ->) | (e & He & _)].
  - intros _. right. split; [exact Hacc|]. split; [cbn; auto 10|].
    exists (alert_email self f t message). split; [cbn; auto 10|].
    split; [reflexivity|]. apply email_body_carries.
  - destruct (send_email self config message relay) as [ev r].
    unfold returned in He. cbn [snd] in He. subst r. cbn.
    destruct (is_Exception e); cbn; [|discriminate].
    intros _. left. right. apply in_or_app. right. cbn. auto.
Qed.

Lemma send_notification_delivers_witness :
  In (Console (StockAlert back_in_stock))
    (events (send_notification bad_port back_in_stock relay_unreachable))
  \/ (relay_accepts relay_unreachable
      /\ In (Log INFO EmailSent)
           (events (send_notification bad_port back_in_stock relay_unreachable))
      /\ exists msg,
           In (Smtp (SendMessage msg))
             (events (send_notification bad_port back_in_stock relay_unreachable))
           /\ msg_subject msg = "Pokémon Center Stock Alert!"
           /\ py.contains (msg_body msg) back_in_stock = true
           /\ py.contains (msg_body msg) (url bad_port) = true).
Proof.
  apply (send_notification_delivers bad_port back_in_stock relay_unreachable).
  vm_compute. reflexivity.
Defined.

(** X7: [send_notification] raises nothing of its own: the only exception
    that leaves it is the operator's interrupt, and only when a step of
    the mail session was interrupted. *)
Theorem send_notification_raises_only_the_interrupt
    (self : PokemonStockMonitor) (message : string) (relay : smtp_relay) (e : exn) :
  returned (send_notification self message relay) = Raise e ->
  e = KeyboardInterrupt /\ relay_raises relay KeyboardInterrupt.
Proof.
  unfold send_notification.
  destruct (email_enabled self) as [config|]; [|cbn; discriminate].
  destruct (send_email_cases self config message relay)
    as [(f & t & s & p & w & _ & _ & _ & _ & _ & _ & ->) | (e' & He & Hwhy)];
    [cbn; discriminate|].
  destruct (send_email self config message relay) as [ev r].
  unfold returned in He. cbn [snd] in He. subst r. cbn.
  destruct (is_Exception e') eqn:Hex; cbn; [discriminate|].
  intros [= <-]. destruct Hwhy as [(key & -> & _)|Hr]; [discriminate Hex|].
  destruct e'; try discriminate Hex. now split.
Qed.

Lemma send_notification_raises_only_the_interrupt_witness :
  KeyboardInterrupt = KeyboardInterrupt /\ relay_raises relay_interrupted KeyboardInterrupt.
Proof.
  apply (send_notification_raises_only_the_interrupt with_email back_in_stock
           relay_interrupted KeyboardInterrupt).
  vm_compute. reflexivity.
Defined.

(** ** The loop, over any schedule *)

Section IterationMore.

Variable absent_matches_empty : bool.
Variable self : PokemonStockMonitor.
Variable check_interval : Z.
Variable t : tick.

(** A status of 0 is false at line 125, like [None]. *)
Lemma iteration_zero_status (ev : list event) (in_stock : bool) :
  check_stock absent_matches_empty self (http_get t) = (ev, Return (in_stock, Some 0)) ->
  exists tail,
    events (iteration absent_matches_empty self check_interval t)
    = ev ++ Log WARNING FailedToCheckStock :: tail
    /\ quiet tail = true.
Proof.
  intros Hc. unfold iteration. rewrite Hc. unfold time_sleep.
  destruct (check_interval <? 0).
  - cbn. flatten_events. now eexists.
  - destruct (sleep t) as [[]|e]; [cbn; flatten_events; now eexists|].
    destruct e; cbn; flatten_events; now eexists.
Qed.

(** An interrupt that leaves [check_stock] ends the loop at line 139. *)
Lemma iteration_interrupted_check (ev : list event) :
  check_stock absent_matches_empty self (http_get t) = (ev, Raise KeyboardInterrupt) ->
  iteration absent_matches_empty self check_interval t
  = (ev ++ [Log INFO StoppedByUser], Return Break).
Proof. intros Hc. unfold iteration. rewrite Hc. reflexivity. Qed.

(** An interrupt during the sleep of line 136 does the same. *)
Lemma iteration_interrupted_sleep (ev : list event) (status : option Z) :
  check_stock absent_matches_empty self (http_get t) = (ev, Return (false, status)) ->
  0 <= check_interval ->
  sleep t = Raise KeyboardInterrupt ->
  exists record,
    iteration absent_matches_empty self check_interval t
    = (ev ++ [record; Sleep check_interval; Log INFO StoppedByUser], Return Break)
    /\ quiet [record] = true.
Proof.
  intros Hc Hci Hsl. unfold iteration. rewrite Hc. unfold time_sleep.
  rewrite (proj2 (Z.ltb_ge _ _) Hci), Hsl.
  destruct status as [s|]; [destruct (s =? 0) eqn:Hs|].
  all: cbn; rewrite ?Hs; cbn; flatten_events; now eexists.
Qed.


(** An exception caught at line 141, then an interrupt during the sleep of
    line 143: nothing catches that one. *)
Lemma iteration_interrupted_handler (ev : list event) (e : exn) :
  check_stock absent_matches_empty self (http_get t) = (ev, Raise e) ->
  is_Exception e = true ->
  0 <= check_interval ->
  sleep t = Raise KeyboardInterrupt ->
  iteration absent_matches_empty self check_interval t
  = (ev ++ [Log ERROR (UnexpectedError e); Sleep check_interval], Raise KeyboardInterrupt).
Proof.
  intros Hc He Hci Hsl. unfold iteration. rewrite Hc. unfold time_sleep.
  rewrite (proj2 (Z.ltb_ge _ _) Hci), Hsl.
  destruct e; try discriminate He; cbn; flatten_events; reflexivity.
Qed.

(** What one pass of the loop does, whatever the tick: one request first;
    then either no notification at all, or one call of the notifier with
    the back-in-stock message, after which the loop is left. *)
Lemma iteration_summary :
  exists tail,
    events (iteration absent_matches_empty self check_interval t) = request self :: tail
    /\ (quiet tail = true
        \/ (returned (iteration absent_matches_empty self check_interval t) = Return Break
            /\ exists pre post,
                 tail = pre ++ SendNotification back_in_stock :: post
                 /\ quiet pre = true /\ quiet post = true)).
Proof.
  destruct (check_stock_cases absent_matches_empty self (http_get t))
    as [(e & _ & Hc) | [(r & soup & _ & _ & _ & _ & Hc) | (e & _ & He & Hc)]].
  - destruct (iteration_failed_check _ _ check_interval _ _ _ Hc) as (tail & -> & Hq & _).
    eexists. split; [reflexivity|]. left. cbn. exact Hq.
  - destruct (status_code r =? 0) eqn:Hz.
    + apply Z.eqb_eq in Hz. rewrite Hz in Hc.
      destruct (iteration_zero_status _ _ Hc) as (tail & -> & Hq).
      eexists. split; [reflexivity|]. left. cbn. exact Hq.
    + apply Z.eqb_neq in Hz.
      destruct (fst (classify absent_matches_empty soup)) eqn:Hv.
      * destruct (iteration_in_stock _ _ check_interval _ _ _ Hc Hz) as (tail & -> & Hq).
        eexists. split; [reflexivity|]. right. split; [reflexivity|].
        eexists [_; _], tail. now repeat split.
      * destruct (iteration_not_in_stock _ _ check_interval _ _ _ Hc Hz)
          as (tail & -> & Hq & _).
        eexists. split; [reflexivity|]. left. cbn. exact Hq.
  - destruct (is_Exception e) eqn:Hex.
    + destruct (iteration_unexpected_error _ _ check_interval _ _ _ Hc Hex)
        as (tail & -> & Hq & _).
      eexists. split; [reflexivity|]. left. cbn. exact Hq.
    + destruct e; try discriminate Hex.
      rewrite (iteration_interrupted_check _ Hc). eexists. split; [reflexivity|]. now left.
Qed.

End IterationMore.

Section PollingMore.

Variable absent_matches_empty : bool.
Variable self : PokemonStockMonitor.
Variable check_interval : Z.

Lemma monitor_polling (ticks : list tick) :
  monitor absent_matches_empty self check_interval ticks
  = (Log INFO (StartingToMonitor (url self)) :: Log INFO (CheckInterval check_interval)
       :: events (polling absent_matches_empty self check_interval ticks),
     returned (polling absent_matches_empty self check_interval ticks)).
Proof.
  unfold monitor.
  destruct (polling absent_matches_empty self check_interval ticks) as [ev r].
  reflexivity.
Qed.

Lemma polling_raise (t : tick) (rest : list tick) (ev : list event) (e : exn) :
  iteration absent_matches_empty self check_interval t = (ev, Raise e) ->
  polling absent_matches_empty self check_interval (t :: rest) = (ev, Raise e).
Proof. intros H. cbn [polling]. now rewrite H. Qed.

(** The loop over any schedule: at most one request per tick, one per tick
    while it keeps polling; and either no notification, or a single one,
    with the back-in-stock message, after which there is neither a request
    nor a second notification and the loop is over. *)
Lemma polling_summary (ticks : list tick) :
  (count is_check (events (polling absent_matches_empty self check_interval ticks))
   <= length ticks)%nat
  /\ (returned (polling absent_matches_empty self check_interval ticks) = Return POLLING ->
      count is_check (events (polling absent_matches_empty self check_interval ticks))
      = length ticks
      /\ count is_notification
           (events (polling absent_matches_empty self check_interval ticks)) = 0%nat)
  /\ (count is_notification
        (events (polling absent_matches_empty self check_interval ticks)) = 0%nat
      \/ (returned (polling absent_matches_empty self check_interval ticks) = Return DONE
          /\ exists pre post,
               events (polling absent_matches_empty self check_interval ticks)
               = pre ++ SendNotification back_in_stock :: post
               /\ count is_notification pre = 0%nat /\ quiet post = true)).
Proof.
  induction ticks as [|t ticks IH]; [cbn; auto|].
  destruct IH as (IHle & IHpoll & IHnote).
  destruct (iteration_summary absent_matches_empty self check_interval t)
    as (tail & Hev & Hshape).
  destruct (iteration absent_matches_empty self check_interval t) as [ev r] eqn:Hit.
  unfold events in Hev. cbn [fst] in Hev. subst ev.
  destruct Hshape as [Hq | (Hbreak & pre & post & -> & Hpre & Hpost)].
  - destruct (quiet_count _ Hq) as [Hn Hk].
    destruct r as [[|]|e].
    + rewrite (polling_continue _ _ _ _ _ _ Hit). unfold events, returned. cbn [fst snd].
      fold (events (polling absent_matches_empty self check_interval ticks)).
      fold (returned (polling absent_matches_empty self check_interval ticks)).
      cbn [app length]. rewrite !count_cons, !count_app, Hn, Hk. cbn [is_check is_notification request].
      split; [lia|]. split.
      * intros Hp. destruct (IHpoll Hp) as [-> ->]. now split.
      * destruct IHnote as [-> | (Hdone & p & q & -> & Hp0 & Hq0)]; [now left|].
        right. split; [exact Hdone|].
        exists (request self :: tail ++ p), q. split; [cbn [app]; now rewrite <- app_assoc|].
        split; [|exact Hq0]. now rewrite count_cons, count_app, Hn, Hp0.
    + rewrite (polling_break _ _ _ _ _ _ Hit). unfold events, returned. cbn [fst snd length].
      rewrite !count_cons, Hn, Hk. cbn [is_check is_notification request].
      split; [lia|]. split; [discriminate|]. now left.
    + rewrite (polling_raise _ _ _ _ Hit). unfold events, returned. cbn [fst snd length].
      rewrite !count_cons, Hn, Hk. cbn [is_check is_notification request].
      split; [lia|]. split; [discriminate|]. now left.
  - unfold returned in Hbreak. cbn [snd] in Hbreak. subst r.
    destruct (quiet_count _ Hpre) as [Hn Hk], (quiet_count _ Hpost) as [Hn' Hk'].
    rewrite (polling_break _ _ _ _ _ _ Hit). unfold events, returned. cbn [fst snd length].
    rewrite !count_cons, !count_app, !count_cons, Hk, Hk'. cbn [is_check is_notification request].
    split; [lia|]. split; [discriminate|]. right. split; [reflexivity|].
    exists (request self :: pre), post. split; [reflexivity|].
    split; [|exact Hpost]. now rewrite count_cons, Hn.
Qed.

End PollingMore.

(** X8: over any schedule of ticks, [monitor] calls the notifier at most
    once.  When it does, the message is the back-in-stock message, no
    request and no second call follow, and [monitor] has returned. *)
Theorem monitor_notifies_at_most_once
    (absent_matches_empty : bool) (self : PokemonStockMonitor) (check_interval : Z)
    (ticks : list tick) :
  count is_notification (events (monitor absent_matches_empty self check_interval ticks))
  = 0%nat
  \/ (returned (monitor absent_matches_empty self check_interval ticks) = Return DONE
      /\ exists pre post,
           events (monitor absent_matches_empty self check_interval ticks)
           = pre ++ SendNotification back_in_stock :: post
           /\ count is_notification pre = 0%nat /\ quiet post = true).
Proof.
  rewrite monitor_polling.
  destruct (polling_summary absent_matches_empty self check_interval ticks)
    as (_ & _ & [H0 | (Hdone & pre & post & Hev & Hpre & Hpost)]);
    unfold events, returned in *; cbn [fst snd] in *.
  - left. now rewrite !count_cons, H0.
  - right. split; [exact Hdone|].
    exists (Log INFO (StartingToMonitor (url self))
            :: Log INFO (CheckInterval check_interval) :: pre), post.
    rewrite Hev. split; [reflexivity|]. split; [|exact Hpost].
    now rewrite !count_cons, Hpre.
Qed.

(** X9: [monitor] makes at most one request per tick; as long as it is
    still polling at the end of the schedule it has made exactly one
    request per tick and has not called the notifier. *)
Theorem monitor_requests_once_per_tick
    (absent_matches_empty : bool) (self : PokemonStockMonitor) (check_interval : Z)
    (ticks : list tick) :
  (count is_check (events (monitor absent_matches_empty self check_interval ticks))
   <= length ticks)%nat
  /\ (returned (monitor absent_matches_empty self check_interval ticks) = Return POLLING ->
      count is_check (events (monitor absent_matches_empty self check_interval ticks))
      = length ticks
      /\ count is_notification
           (events (monitor absent_matches_empty self check_interval ticks)) = 0%nat).
Proof.
  rewrite monitor_polling.
  destruct (polling_summary absent_matches_empty self check_interval ticks)
    as (Hle & Hpoll & _).
  unfold events, returned in *. cbn [fst snd] in *.
  rewrite !count_cons. cbn [is_check is_notification request]. split; [exact Hle|].
  intros Hp. destruct (Hpoll Hp) as [-> ->]. now split.
Qed.

(** X10: an interrupt by the operator during the request, or during the
    sleep that follows a not-in-stock verdict or a failed check, ends the
    loop in good order: "Monitoring stopped by user" is the last record,
    [monitor] returns, no notifier is called and later ticks are not
    read. *)
Theorem monitor_interrupt_stops_in_good_order
    (absent_matches_empty : bool) (self : PokemonStockMonitor) (check_interval : Z)
    (t : tick) (rest : list tick) :
  http_get t = Raise KeyboardInterrupt
  \/ ((exists status,
         returned (check_stock absent_matches_empty self (http_get t))
         = Return (false, status))
      /\ 0 <= check_interval /\ sleep t = Raise KeyboardInterrupt) ->
  exists ev,
    monitor absent_matches_empty self check_interval (t :: rest)
    = (ev ++ [Log INFO StoppedByUser], Return DONE)
    /\ count is_notification ev = 0%nat
    /\ count is_check ev = 1%nat.
Proof.
  intros Hcase.
  assert (Hit : exists tail,
    iteration absent_matches_empty self check_interval t
    = ((request self :: tail) ++ [Log INFO StoppedByUser], Return Break)
    /\ quiet tail = true).
  { destruct Hcase as [Hg | ((status & Hr) & Hci & Hsl)].
    - rewrite (iteration_interrupted_check _ _ _ _ [request self]).
      + now exists [].
      + rewrite Hg. now apply check_stock_get_raises.
    - destruct (check_stock_events absent_matches_empty self (http_get t))
        as (tail & Hev & Hq).
      destruct (check_stock absent_matches_empty self (http_get t)) as [ev r] eqn:Hc.
      unfold returned in Hr. unfold events in Hev. cbn [fst snd] in Hr, Hev. subst ev r.
      destruct (iteration_interrupted_sleep _ _ _ _ _ _ Hc Hci Hsl) as (record & -> & Hrec).
      exists (tail ++ [record; Sleep check_interval]). split.
      + cbn [app]. now rewrite <- !app_assoc.
      + rewrite quiet_app, Hq. cbn in Hrec |- *. now rewrite andb_true_r in *. }
  destruct Hit as (tail & Hit & Hq). destruct (quiet_count _ Hq) as [Hn Hk].
  rewrite monitor_polling, (polling_break _ _ _ _ _ _ Hit).
  unfold events, returned. cbn [fst snd].
  exists (Log INFO (StartingToMonitor (url self)) :: Log INFO (CheckInterval check_interval)
          :: request self :: tail).
  split; [reflexivity|]. rewrite !count_cons, Hn, Hk. now split.
Qed.

Lemma monitor_interrupt_stops_in_good_order_witness :
  exists ev,
    monitor true pokemon_center 90 [tick_interrupted_sleep; tick_in_stock]
    = (ev ++ [Log INFO StoppedByUser], Return DONE)
    /\ count is_notification ev = 0%nat
    /\ count is_check ev = 1%nat.
Proof.
  apply (monitor_interrupt_stops_in_good_order true pokemon_center 90
           tick_interrupted_sleep [tick_in_stock]).
  right. split; [exists (Some 200); vm_compute; reflexivity|]. split; [lia|reflexivity].
Defined.

(** X11: an interrupt during the sleep of the handler (line 143), after an
    exception was caught at line 141, is caught by nothing: it leaves
    [monitor] as [KeyboardInterrupt], and no "stopped by user" record is
    written. *)
Theorem monitor_interrupt_in_handler_escapes
    (absent_matches_empty : bool) (self : PokemonStockMonitor) (check_interval : Z)
    (t : tick) (rest : list tick) (e : exn) :
  returned (check_stock absent_matches_empty self (http_get t)) = Raise e ->
  is_Exception e = true ->
  0 <= check_interval ->
  sleep t = Raise KeyboardInterrupt ->
  monitor absent_matches_empty self check_interval (t :: rest)
  = ([Log INFO (StartingToMonitor (url self)); Log INFO (CheckInterval check_interval);
      request self; Log ERROR (UnexpectedError e); Sleep check_interval],
     Raise KeyboardInterrupt).
Proof.
  intros Hr He Hci Hsl.
  assert (Hc : check_stock absent_matches_empty self (http_get t) = ([request self], Raise e)).
  { destruct (check_stock_cases absent_matches_empty self (http_get t))
      as [(e' & _ & Hc) | [(r & soup & _ & _ & _ & _ & Hc) | (e' & _ & _ & Hc)]];
      rewrite Hc in Hr; unfold returned in Hr; cbn [snd] in Hr; try discriminate.
    injection Hr as ->. exact Hc. }
  rewrite monitor_polling,
    (polling_raise _ _ _ _ _ _ _ (iteration_interrupted_handler _ _ _ _ _ _ Hc He Hci Hsl)).
  reflexivity.
Qed.

Lemma monitor_interrupt_in_handler_escapes_witness :
  monitor true pokemon_center 90 [tick_unparsable_interrupted; tick_in_stock]
  = ([Log INFO (StartingToMonitor (url pokemon_center)); Log INFO (CheckInterval 90);
      request pokemon_center; Log ERROR (UnexpectedError ParserRejectedMarkup); Sleep 90],
     Raise KeyboardInterrupt).
Proof.
  apply (monitor_interrupt_in_handler_escapes true pokemon_center 90
           tick_unparsable_interrupted [tick_in_stock] ParserRejectedMarkup);
    [reflexivity | reflexivity | lia | reflexivity].
Defined.




(** ** Start-up with a product URL *)

(** What [load_config] returns once the product URL is set. *)
Lemma load_config_set (env : gmap string string) :
  unset env "PRODUCT_URL" = false ->
  exists pre email_config,
    load_config env
    = (pre, Return (Config (default "" (env !! "PRODUCT_URL")) email_config
                      (env_check_interval env)))
    /\ forallb is_console pre = true
    /\ (email_usable env = false -> email_config = None)
    /\ (email_usable env = true ->
        exists port,
          py.int (default "" (env !! "SMTP_PORT")) = Some port
          /\ email_config
             = Some (email_dict (default "" (env !! "SMTP_SERVER")) port
                       (default "" (env !! "FROM_EMAIL"))
                       (default "" (env !! "EMAIL_PASSWORD"))
                       (default "" (env !! "TO_EMAIL")))).
Proof.
  intros Hurl. unfold load_config, env_check_interval, email_usable.
  cbn [List.filter forallb]. rewrite Hurl.
  destruct (py.int (default "90" (env !! "CHECK_INTERVAL"))) as [n|];
    destruct (String.eqb (py.lower (default "true" (env !! "EMAIL_NOTIFICATIONS"))) "true");
    destruct (unset env "SMTP_SERVER"), (unset env "SMTP_PORT"), (unset env "FROM_EMAIL"),
      (unset env "EMAIL_PASSWORD"), (unset env "TO_EMAIL");
    destruct (py.int (default "" (env !! "SMTP_PORT"))) as [port|];
    cbn; do 2 eexists; (split; [reflexivity|]); (split; [reflexivity|]);
    (split; [try reflexivity; discriminate|]); try discriminate;
    intros _; eexists; split; reflexivity.
Qed.

(** With the dictionary of [load_config] no key is missing. *)
Lemma send_notification_with_email_dict
    (url smtp_server from_email password to_email message : string) (smtp_port : Z)
    (relay : smtp_relay) :
  relay_accepts relay ->
  let self := {| url := url;
                 email_config :=
                   Some (email_dict smtp_server smtp_port from_email password to_email) |} in
  send_notification self message relay
  = ([SendNotification message;
      Smtp (Connect (PStr smtp_server) (PInt smtp_port)); Smtp StartTls;
      Smtp (Login (PStr from_email) (PStr password));
      Smtp (SendMessage (alert_email self (PStr from_email) (PStr to_email) message));
      Smtp Quit; Log INFO EmailSent], Return tt).
Proof.
  intros (Hc & Hs & Hl & Hm & Hq) self.
  unfold send_notification.
  change (email_enabled self)
    with (Some (email_dict smtp_server smtp_port from_email password to_email)).
  unfold send_email, getitem.
  change (email_dict smtp_server smtp_port from_email password to_email !! "from_email")
    with (Some (PStr from_email)).
  change (email_dict smtp_server smtp_port from_email password to_email !! "to_email")
    with (Some (PStr to_email)).
  change (email_dict smtp_server smtp_port from_email password to_email !! "smtp_server")
    with (Some (PStr smtp_server)).
  change (email_dict smtp_server smtp_port from_email password to_email !! "smtp_port")
    with (Some (PInt smtp_port)).
  change (email_dict smtp_server smtp_port from_email password to_email !! "password")
    with (Some (PStr password)).
  rewrite Hc, Hs, Hl, Hm, Hq. reflexivity.
Qed.










(** ** The test script *)



(** What [load_email_config] returns: nothing, with an explanation, when
    the e-mail variables are not usable; the dictionary otherwise. *)
Lemma load_email_config_cases (env : gmap string string) :
  (email_usable env = false
   /\ exists pre,
        test_email.load_email_config env = (pre, Return None)
        /\ forallb (fun a => negb (is_mail a)) pre = true)
  \/ (email_usable env = true
      /\ exists port,
           py.int (default "" (env !! "SMTP_PORT")) = Some port
           /\ test_email.load_email_config env
              = ([], Return (Some (tested_dict (default "" (env !! "SMTP_SERVER")) port
                                     (default "" (env !! "FROM_EMAIL"))
                                     (default "" (env !! "EMAIL_PASSWORD"))
                                     (default "" (env !! "TO_EMAIL")))))).
Proof.
  unfold test_email.load_email_config, email_usable. cbn [List.filter forallb].
  destruct (String.eqb (py.lower (default "true" (env !! "EMAIL_NOTIFICATIONS"))) "true");
    [|left; split; [reflexivity|]; now eexists].
  destruct (unset env "SMTP_SERVER"), (unset env "SMTP_PORT"), (unset env "FROM_EMAIL"),
    (unset env "EMAIL_PASSWORD"), (unset env "TO_EMAIL");
    destruct (py.int (default "" (env !! "SMTP_PORT"))) as [port|];
    cbn; first [ left; split; [reflexivity|]; now eexists
               | right; split; [reflexivity|]; now eexists ].
Qed.

(** X17: the test script and the monitor read the e-mail configuration
    alike: whenever the product URL is set, [load_config] returns an
    e-mail configuration exactly when [load_email_config] does, and the
    monitor's dictionary is the tested one with [enabled] set to true. *)
Theorem monitor_uses_the_tested_configuration (env : gmap string string) :
  unset env "PRODUCT_URL" = false ->
  exists tested,
    test_email.returned (test_email.load_email_config env) = Return tested
    /\ returned (load_config env)
       = Return (Config (default "" (env !! "PRODUCT_URL"))
                   (insert "enabled" (PBool true) <$> tested)
                   (env_check_interval env)).
Proof.
  intros Hurl.
  destruct (load_config_set env Hurl) as (pre & cfg & -> & _ & Hoff & Hon).
  destruct (load_email_config_cases env)
    as [(Hu & pre' & -> & _) | (Hu & port & Hport & ->)].
  - exists None. split; [reflexivity|]. now rewrite (Hoff Hu).
  - eexists. split; [reflexivity|].
    destruct (Hon Hu) as (port' & Hport' & ->).
    assert (port' = port) by congruence. subst port'. reflexivity.
Qed.

Lemma monitor_uses_the_tested_configuration_witness :
  exists tested,
    test_email.returned (test_email.load_email_config env_complete) = Return tested
    /\ returned (load_config env_complete)
       = Return (Config (default "" (env_complete !! "PRODUCT_URL"))
                   (insert "enabled" (PBool true) <$> tested)
                   (env_check_interval env_complete)).
Proof. apply (monitor_uses_the_tested_configuration env_complete). reflexivity. Defined.

Lemma tested_dict_lookups (s f w t : string) (p : Z) :
  tested_dict s p f w t !! "from_email" = Some (PStr f)
  /\ tested_dict s p f w t !! "to_email" = Some (PStr t)
  /\ tested_dict s p f w t !! "smtp_server" = Some (PStr s)
  /\ tested_dict s p f w t !! "smtp_port" = Some (PInt p)
  /\ tested_dict s p f w t !! "password" = Some (PStr w)
  /\ test_email.usable (Some (tested_dict s p f w t)) = Some (tested_dict s p f w t).
Proof. repeat split. Qed.













Lemma test_stock_alert_format_accepted (env : gmap string string) (relay : smtp_relay) :
  email_usable env = true ->
  relay_accepts relay ->
  exists port,
    py.int (default "" (env !! "SMTP_PORT")) = Some port
    /\ test_email.test_stock_alert_format env relay
       = ([test_email.Mail (Connect (PStr (default "" (env !! "SMTP_SERVER"))) (PInt port));
           test_email.Mail StartTls;
           test_email.Mail (Login (PStr (default "" (env !! "FROM_EMAIL")))
                              (PStr (default "" (env !! "EMAIL_PASSWORD"))));
           test_email.Mail
             (SendMessage
                {| msg_from := PStr (default "" (env !! "FROM_EMAIL"));
                   msg_to := PStr (default "" (env !! "TO_EMAIL"));
                   msg_subject := alert_subject;
                   msg_body :=
                     test_email.preview_body
                       (default "https://www.pokemoncenter.com/product/example"
                          (env !! "PRODUCT_URL")) |});
           test_email.Mail Quit;
           test_email.Say "✅ Stock alert test email sent!";
           test_email.Say
             "📱 Check your inbox - this is exactly what you'll receive when the item restocks!"],
          Return true).
Proof.
  intros Hu (Hc & Hs & Hl & Hm & Hq).
  destruct (load_email_config_cases env) as [(Hu' & _) | (_ & port & Hport & Hload)];
    [congruence|].
  exists port. split; [exact Hport|].
  unfold test_email.test_stock_alert_format. rewrite Hload.
  cbn [test_email.bind app].
  destruct (tested_dict_lookups (default "" (env !! "SMTP_SERVER"))
              (default "" (env !! "FROM_EMAIL")) (default "" (env !! "EMAIL_PASSWORD"))
              (default "" (env !! "TO_EMAIL")) port) as (Lf & Lt & Ls & Lp & Lw & Lu).
  rewrite Lu. unfold test_email.getitem. rewrite Lf, Lt, Ls, Lp, Lw, Hc, Hs, Hl, Hm, Hq.
  reflexivity.
Qed.

Lemma preview_body_differs (product_url message url : string) :
  test_email.preview_body product_url <> email_body message url.
Proof.
  intros H. apply (f_equal (String.get 9)) in H. cbn in H. discriminate H.
Qed.

(** X21: the preview of [test_stock_alert_format] and the alert that a
    monitor built from the same environment sends carry the same From, To
    and Subject, but never the same body. *)
Theorem preview_has_the_headers_of_the_alert
    (env : gmap string string) (url : string) (config : gmap string pyval)
    (check_interval : Z) (message : string) (relay : smtp_relay) :
  returned (load_config env) = Return (Config url (Some config) check_interval) ->
  relay_accepts relay ->
  exists preview alert,
    messages (test_email.actions (test_email.test_stock_alert_format env relay)) = [preview]
    /\ In (Smtp (SendMessage alert))
          (events (send_notification {| url := url; email_config := Some config |}
                     message relay))
    /\ msg_from preview = msg_from alert
    /\ msg_to preview = msg_to alert
    /\ msg_subject preview = msg_subject alert
    /\ msg_body preview <> msg_body alert.
Proof.
  intros Hload Hrelay.
  destruct (unset env "PRODUCT_URL") eqn:Hurl.
  { rewrite (load_config_unset env Hurl) in Hload. discriminate Hload. }
  destruct (load_config_set env Hurl) as (pre & cfg & Heq & _ & Hoff & Hon).
  rewrite Heq in Hload. unfold returned in Hload. cbn [snd] in Hload.
  injection Hload as <- -> _.
  destruct (email_usable env) eqn:Hu; [|now specialize (Hoff eq_refl)].
  destruct (Hon eq_refl) as (port & Hport & [= ->]).
  destruct (test_stock_alert_format_accepted env relay Hu Hrelay) as (port' & _ & ->).
  rewrite (send_notification_with_email_dict _ _ _ _ _ message port relay Hrelay).
  do 2 eexists. split; [reflexivity|].
  split; [cbn; do 4 right; left; reflexivity|].
  repeat split. apply preview_body_differs.
Qed.

Lemma preview_has_the_headers_of_the_alert_witness :
  exists preview alert,
    messages (test_email.actions (test_email.test_stock_alert_format env_complete relay_ok))
    = [preview]
    /\ In (Smtp (SendMessage alert))
          (events (send_notification
                     {| url := "https://www.pokemoncenter.com/product/701-29495";
                        email_config :=
                          Some (email_dict "smtp.gmail.com" 587 "ash@example.com" "pikachu"
                                  "misty@example.com") |}
                     back_in_stock relay_ok))
    /\ msg_from preview = msg_from alert
    /\ msg_to preview = msg_to alert
    /\ msg_subject preview = msg_subject alert
    /\ msg_body preview <> msg_body alert.
Proof.
  apply (preview_has_the_headers_of_the_alert env_complete _ _ 30).
  - reflexivity.
  - repeat split.
Defined.
